(** * silverbullet-treeview: the panel lifecycle controller (treeview.ts)

    A shallow embedding of [src/treeview.ts]: the adaptive position
    resolver [getAdaptivePosition] and the four asynchronous entry points
    [toggleTree], [hideTree], [showTreeIfEnabled] and [showTree], followed
    by the properties of the specification that concern them.

    The entry points are [async] functions that mutate one module variable
    ([currentPosition]), read and write one persisted flag, and call host
    collaborators that may reject.  They are embedded in a state-and-rejection
    monad [Promise]: a computation takes the [World] and returns an [outcome]
    together with the world it leaves behind, so that what was mutated before
    a rejection stays mutated, as in JavaScript.  Every collaborator call is
    appended to a chronological log, [calls], on which the ordering and
    counting properties are stated. *)

From Stdlib Require Import ZArith String Ascii List Bool Lia DecimalString.
Import ListNotations.

Local Open Scope string_scope.
Local Open Scope Z_scope.

(** ** Data model *)

(** Modelled from the spec: the [Position] enumeration of config.ts is not
    part of the sources at hand; the specification gives it as
    ["left" | "right" | "modal"].  Only ["modal"] is named by treeview.ts.
    Every member is a non-empty string literal, hence truthy. *)
Inductive Position : Type :=
| left_side
| right_side
| modal.

Definition Position_eqb (a b : Position) : bool :=
  match a, b with
  | left_side, left_side => true
  | right_side, right_side => true
  | modal, modal => true
  | _, _ => false
  end.

#[local] Set Warnings "-register-all".

(** A JSON value: page-tree nodes and the drag-and-drop options are passed
    through to the panel script opaquely, by [JSON.stringify]. *)
Inductive json : Type :=
| JNull
| JBool (b : bool)
| JNumber (n : Z)
| JString (s : string)
| JArray (items : list json)
| JObject (fields : list (string * json)).

(** [config.dragAndDrop]: the [enabled] flag and its other own properties. *)
Record DragAndDrop : Type := {
  enabled : bool;
  otherOptions : list (string * json)
}.

(** [TreeViewConfig] as treeview.ts consumes it.  Pixel widths and the panel
    size are JavaScript numbers, taken here as integers. *)
Record TreeViewConfig : Type := {
  position : Position;
  autoMobileMode : bool;
  mobileThreshold : Z;
  size : Z;
  dragAndDrop : DragAndDrop
}.

(** What [getPageTree] resolves to. *)
Record PageTreeResult : Type := {
  currentPage : string;
  nodes : list json
}.

(** The global [window] object, when there is one. *)
Record Window : Type := {
  innerWidth : Z
}.

(** ** Position resolver *)

(** [getAdaptivePosition], lines 22-32.  [window] is [None] where
    [typeof window] is ["undefined"]. *)
Definition getAdaptivePosition (window : option Window) (config : TreeViewConfig)
  : Position :=
  if negb (autoMobileMode config) then position config
  else
    let isMobile :=
      match window with
      | Some win => innerWidth win <=? mobileThreshold config
      | None => false
      end in
    if isMobile then modal else position config.

(** ** Payload assembly *)

(** The double-quote character, and a string between double quotes. *)
Definition dquote : string := String (ascii_of_nat 34) EmptyString.

Definition q (s : string) : string := dquote ++ s ++ dquote.

Definition hex_digit (n : nat) : string :=
  String.substring n 1 "0123456789abcdef".

(** How [JSON.stringify] writes one character of a string. *)
Definition escape_char (c : ascii) : string :=
  let n := nat_of_ascii c in
  if Nat.eqb n 34 then "\" ++ dquote
  else if Nat.eqb n 92 then "\\"
  else if Nat.eqb n 8 then "\b"
  else if Nat.eqb n 9 then "\t"
  else if Nat.eqb n 10 then "\n"
  else if Nat.eqb n 12 then "\f"
  else if Nat.eqb n 13 then "\r"
  else if Nat.ltb n 32 then
    "\u00" ++ hex_digit (Nat.div n 16) ++ hex_digit (Nat.modulo n 16)
  else String c EmptyString.

Fixpoint escape_string (s : string) : string :=
  match s with
  | EmptyString => EmptyString
  | String c rest => escape_char c ++ escape_string rest
  end.

(** [JSON.stringify] on the values that reach it here. *)
Fixpoint JSON_stringify (v : json) : string :=
  match v with
  | JNull => "null"
  | JBool b => if b then "true" else "false"
  | JNumber n => NilZero.string_of_int (Z.to_int n)
  | JString s => q (escape_string s)
  | JArray items =>
      "[" ++
      (fix elements (l : list json) : string :=
         match l with
         | [] => ""
         | [x] => JSON_stringify x
         | x :: more => JSON_stringify x ++ "," ++ elements more
         end) items ++ "]"
  | JObject fields =>
      "{" ++
      (fix members (l : list (string * json)) : string :=
         match l with
         | [] => ""
         | [(k, x)] => q (escape_string k) ++ ":" ++ JSON_stringify x
         | (k, x) :: more =>
             q (escape_string k) ++ ":" ++ JSON_stringify x ++ "," ++ members more
         end) fields ++ "}"
  end.

(** Assigning property [k] of an object literal: an existing key keeps its
    place, a new one goes last. *)
Fixpoint object_set (k : string) (v : json) (o : list (string * json))
  : list (string * json) :=
  match o with
  | [] => [(k, v)]
  | (k', v') :: rest =>
      if String.eqb k k' then (k, v) :: rest else (k', v') :: object_set k v rest
  end.

(** [{ ...config.dragAndDrop }] *)
Definition spread_dragAndDrop (d : DragAndDrop) : list (string * json) :=
  ("enabled", JBool (enabled d)) :: otherOptions d.

(** [treeViewConfig], lines 114-122. *)
Definition treeViewConfig (tree : PageTreeResult) (config : TreeViewConfig)
  : json :=
  JObject
    [ ("nodes", JArray (nodes tree));
      ("currentPage", JString (currentPage tree));
      ("treeElementId", JString "treeview-tree");
      ("dragAndDrop",
        JObject (object_set "enabled" (JBool (enabled (dragAndDrop config)))
                   (spread_dragAndDrop (dragAndDrop config)))) ].

(** The nine assets read by [showTree], in the order of the array handed to
    [Promise.all] (lines 100-108). *)
Definition assetPaths : list string :=
  [ "assets/sortable-tree/sortable-tree.css";
    "assets/sortable-tree/sortable-tree.js";
    "assets/treeview.css";
    "assets/treeview.js";
    "assets/icons/folder-minus.svg";
    "assets/icons/folder-plus.svg";
    "assets/icons/navigation-2.svg";
    "assets/icons/refresh-cw.svg";
    "assets/icons/x-circle.svg" ].

(** The markup handed to [editor.showPanel], lines 127-149. *)
Definition panelHtml (sortableTreeCss plugCss : string)
  (customStyles : option string)
  (iconFolderPlus iconFolderMinus iconNavigation2 iconRefresh iconXCircle : string)
  : string :=
  "
      <link rel=" ++ q "stylesheet" ++ " href=" ++ q "/.client/main.css" ++ " />
      <style>
        " ++ sortableTreeCss ++ "
        " ++ plugCss ++ "
        " ++ match customStyles with Some css => css | None => "" end ++ "
      </style>
      <div class=" ++ q "treeview-root" ++ ">
        <div class=" ++ q "treeview-header" ++ ">
          <div class=" ++ q "treeview-actions" ++ ">
            <div class=" ++ q "treeview-actions-left" ++ ">
              <button type=" ++ q "button" ++ " data-treeview-action=" ++ q "expand-all" ++ " title=" ++ q "Expand all" ++ ">" ++ iconFolderPlus ++ "</button>
              <button type=" ++ q "button" ++ " data-treeview-action=" ++ q "collapse-all" ++ " title=" ++ q "Collapse all" ++ ">" ++ iconFolderMinus ++ "</button>
              <button type=" ++ q "button" ++ " data-treeview-action=" ++ q "reveal-current-page" ++ " title=" ++ q "Reveal current page" ++ ">" ++ iconNavigation2 ++ "</button>
              <button type=" ++ q "button" ++ " data-treeview-action=" ++ q "refresh" ++ " title=" ++ q "Refresh treeview" ++ ">" ++ iconRefresh ++ "</button>
            </div>
            <div class=" ++ q "treeview-actions-right" ++ ">
              <button type=" ++ q "button" ++ " data-treeview-action=" ++ q "close-panel" ++ " title=" ++ q "Close tree" ++ ">" ++ iconXCircle ++ "</button>
            </div>
          </div>
        </div>
        <div id=" ++ q "treeview-tree" ++ "></div>
      </div>".

(** The script handed to [editor.showPanel], lines 150-165. *)
Definition panelScript (sortableTreeJs plugJs : string) (panelConfig : json)
  (autoMobile : bool) : string :=
  "
      " ++ sortableTreeJs ++ "
      " ++ plugJs ++ "
      initializeTreeViewPanel(" ++ JSON_stringify panelConfig ++ ");
      
      // Auto mode switching on window resize
      if (" ++ (if autoMobile then "true" else "false") ++ ") {
        let resizeTimeout;
        window.addEventListener('resize', () => {
          clearTimeout(resizeTimeout);
          resizeTimeout = setTimeout(() => {
            syscall(" ++ q "system.invokeFunction" ++ ", " ++ q "treeview.show" ++ ");
          }, 300);
        });
      }
    ".

(** ** The world the controller runs in *)

(** What a rejected promise carries. *)
Definition Err : Type := string.

Inductive outcome (A : Type) : Type :=
| Resolved (a : A)
| Rejected (e : Err).

Arguments Resolved {A} a.
Arguments Rejected {A} e.

(** The calls that leave the module, in the order they are issued. *)
Inductive Event : Type :=
| CallGetPlugConfig
| CallGetEnv
| CallIsTreeViewEnabled
| CallSetTreeViewEnabled (value : bool)
| CallHidePanel (at_position : Position)
| CallShowPanel (at_position : Position) (panel_size : Z) (html script : string)
| CallReadAsset (plug path : string)
| CallGetPageTree (config : TreeViewConfig)
| CallGetCustomStyles
| ConsoleError (message : string) (err : Err).

(** [currentPosition] is the module variable of line 17 ([None] is
    [undefined]); [treeViewEnabled] is the persisted preference behind
    [isTreeViewEnabled] and [setTreeViewEnabled]. *)
Record World : Type := {
  currentPosition : option Position;
  treeViewEnabled : bool;
  calls : list Event
}.

(** The world with further calls on its log. *)
Definition logged (evs : list Event) (w : World) : World :=
  {| currentPosition := currentPosition w;
     treeViewEnabled := treeViewEnabled w;
     calls := calls w ++ evs |}.

(** How the collaborators answer during one invocation of an entry point.
    Within one invocation no collaborator is called twice with the same
    arguments, so answers that depend on the arguments alone lose nothing;
    successive invocations may each be given a host of their own.
    [assetSettles] is the time at which a read settles: [Promise.all]
    rejects with the rejection that comes first. *)
Record Host : Type := {
  window : option Window;
  plugConfig : outcome TreeViewConfig;
  env : outcome string;
  enabledReadFault : option Err;
  enabledWriteFault : bool -> option Err;
  hidePanelAnswer : Position -> outcome unit;
  showPanelAnswer : Position -> Z -> string -> string -> outcome unit;
  assetAnswer : string -> string -> outcome string;
  assetSettles : string -> nat;
  pageTreeAnswer : TreeViewConfig -> outcome PageTreeResult;
  customStylesAnswer : outcome (option string)
}.

(** ** Asynchronous computations *)

(** An [async] body run to completion: the outcome, and the world it leaves.
    A rejection keeps the effects that came before it. *)
Definition Promise (A : Type) : Type := World -> outcome A * World.

Definition resolve {A : Type} (a : A) : Promise A :=
  fun w => (Resolved a, w).

Definition reject {A : Type} (e : Err) : Promise A :=
  fun w => (Rejected e, w).

(** [await m] followed by the rest of the body. *)
Definition bind {A B : Type} (m : Promise A) (k : A -> Promise B) : Promise B :=
  fun w =>
    match m w with
    | (Resolved a, w') => k a w'
    | (Rejected e, w') => (Rejected e, w')
    end.

(** [try { body } catch (err) { handler }] *)
Definition try_catch {A : Type} (body : Promise A) (handler : Err -> Promise A)
  : Promise A :=
  fun w =>
    match body w with
    | (Resolved a, w') => (Resolved a, w')
    | (Rejected e, w') => handler e w'
    end.

Declare Scope promise_scope.
Delimit Scope promise_scope with promise.

Notation "x <- m ;; k" := (bind m (fun x => k))
  (at level 61, m at next level, right associativity) : promise_scope.
Notation "m ;; k" := (bind m (fun _ => k))
  (at level 61, right associativity) : promise_scope.

Local Open Scope promise_scope.

Definition settle {A : Type} (r : outcome A) : Promise A :=
  fun w => (r, w).

Definition log (ev : Event) : Promise unit :=
  fun w => (Resolved tt, logged [ev] w).

(** A collaborator call awaited on the spot. *)
Definition call {A : Type} (ev : Event) (answer : outcome A) : Promise A :=
  log ev ;; settle answer.

(** Reading and assigning the module variable. *)
Definition read_currentPosition : Promise (option Position) :=
  fun w => (Resolved (currentPosition w), w).

Definition assign_currentPosition (p : option Position) : Promise unit :=
  fun w =>
    (Resolved tt,
     {| currentPosition := p;
        treeViewEnabled := treeViewEnabled w;
        calls := calls w |}).

(** *** [Promise.all] *)

(** A promise already issued: the call that was made, when it settles and
    with what. *)
Record Pending (A : Type) : Type := {
  issued : Event;
  settlesAt : nat;
  settlesWith : outcome A
}.

Arguments issued {A} _.
Arguments settlesAt {A} _.
Arguments settlesWith {A} _.

(** The earliest rejection of a batch; of two at the same time, the one
    listed first. *)
Fixpoint first_rejection {A : Type} (batch : list (Pending A))
  : option (nat * Err) :=
  match batch with
  | [] => None
  | p :: rest =>
      match settlesWith p with
      | Resolved _ => first_rejection rest
      | Rejected e =>
          match first_rejection rest with
          | Some (t', e') =>
              if (t' <? settlesAt p)%nat then Some (t', e') else Some (settlesAt p, e)
          | None => Some (settlesAt p, e)
          end
      end
  end.

Fixpoint resolved_values {A : Type} (batch : list (Pending A)) : list A :=
  match batch with
  | [] => []
  | p :: rest =>
      match settlesWith p with
      | Resolved a => a :: resolved_values rest
      | Rejected _ => resolved_values rest
      end
  end.

(** [await Promise.all([...])]: the calls of the array are all issued, in
    order, before anything is awaited; the join resolves with every value or
    rejects with the first rejection. *)
Definition Promise_all {A : Type} (batch : list (Pending A)) : Promise (list A) :=
  fun w =>
    (match first_rejection batch with
     | Some (_, e) => Rejected e
     | None => Resolved (resolved_values batch)
     end,
     logged (map issued batch) w).

(** ** Collaborators *)

Definition getPlugConfig (h : Host) : Promise TreeViewConfig :=
  call CallGetPlugConfig (plugConfig h).

Definition system_getEnv (h : Host) : Promise string :=
  call CallGetEnv (env h).

Definition editor_hidePanel (h : Host) (p : Position) : Promise unit :=
  call (CallHidePanel p) (hidePanelAnswer h p).

Definition editor_showPanel (h : Host) (p : Position) (panel_size : Z)
  (html script : string) : Promise unit :=
  call (CallShowPanel p panel_size html script)
       (showPanelAnswer h p panel_size html script).

Definition asset_readAsset (h : Host) (plug path : string) : Pending string :=
  {| issued := CallReadAsset plug path;
     settlesAt := assetSettles h path;
     settlesWith := assetAnswer h plug path |}.

Definition getPageTree (h : Host) (config : TreeViewConfig)
  : Promise PageTreeResult :=
  call (CallGetPageTree config) (pageTreeAnswer h config).

Definition getCustomStyles (h : Host) : Promise (option string) :=
  call CallGetCustomStyles (customStylesAnswer h).

(** Modelled from the spec: the preference store of config.ts,
    [isTreeViewEnabled() -> bool] and [setTreeViewEnabled(bool) -> ()], a
    persisted boolean.  A read or a write that fails rejects and leaves the
    stored value as it was. *)
Definition isTreeViewEnabled (h : Host) : Promise bool :=
  log CallIsTreeViewEnabled ;;
  match enabledReadFault h with
  | Some e => reject e
  | None => fun w => (Resolved (treeViewEnabled w), w)
  end.

Definition setTreeViewEnabled (h : Host) (value : bool) : Promise unit :=
  log (CallSetTreeViewEnabled value) ;;
  match enabledWriteFault h value with
  | Some e => reject e
  | None =>
      fun w =>
        (Resolved tt,
         {| currentPosition := currentPosition w;
            treeViewEnabled := value;
            calls := calls w |})
  end.

(** [console.error(message, err)] *)
Definition console_error (message : string) (err : Err) : Promise unit :=
  log (ConsoleError message err).

(** Truthiness of [currentPosition], and [a !== b] on it. *)
Definition truthy (p : option Position) : bool :=
  match p with
  | Some _ => true
  | None => false
  end.

Definition strict_neq (a : Position) (b : option Position) : bool :=
  match b with
  | Some b' => negb (Position_eqb a b')
  | None => true
  end.

(** ** Reading a log *)

Definition is_showPanel (ev : Event) : bool :=
  match ev with
  | CallShowPanel _ _ _ _ => true
  | _ => false
  end.

Definition is_hidePanel (ev : Event) : bool :=
  match ev with
  | CallHidePanel _ => true
  | _ => false
  end.

Definition count_showPanel (evs : list Event) : nat :=
  length (filter is_showPanel evs).

Definition count_hidePanel (evs : list Event) : nat :=
  length (filter is_hidePanel evs).

Definition resolves {A : Type} (r : outcome A) : bool :=
  match r with
  | Resolved _ => true
  | Rejected _ => false
  end.

(** ** Sample configurations, hosts and worlds *)

Definition sample_dragAndDrop : DragAndDrop :=
  {| enabled := true; otherOptions := [("confirmOnRename", JBool true)] |}.

(** A fixed panel on the left. *)
Definition config_left : TreeViewConfig :=
  {| position := left_side;
     autoMobileMode := false;
     mobileThreshold := 600;
     size := 1;
     dragAndDrop := sample_dragAndDrop |}.

(** An adaptive panel whose configured position is the modal itself. *)
Definition config_adaptive_modal : TreeViewConfig :=
  {| position := modal;
     autoMobileMode := true;
     mobileThreshold := 600;
     size := 1;
     dragAndDrop := sample_dragAndDrop |}.

(** An adaptive panel on the right. *)
Definition config_adaptive_right : TreeViewConfig :=
  {| position := right_side;
     autoMobileMode := true;
     mobileThreshold := 600;
     size := 1;
     dragAndDrop := sample_dragAndDrop |}.

Definition wide_window : Window := {| innerWidth := 1000 |}.

Definition sample_tree : PageTreeResult :=
  {| currentPage := "index";
     nodes := [JObject [("name", JString "index")]] |}.

(** A browser host in which every collaborator resolves. *)
Definition host_ok : Host :=
  {| window := Some wide_window;
     plugConfig := Resolved config_left;
     env := Resolved "client";
     enabledReadFault := None;
     enabledWriteFault := fun _ => None;
     hidePanelAnswer := fun _ => Resolved tt;
     showPanelAnswer := fun _ _ _ _ => Resolved tt;
     assetAnswer := fun _ path => Resolved path;
     assetSettles := fun _ => 0%nat;
     pageTreeAnswer := fun _ => Resolved sample_tree;
     customStylesAnswer := Resolved None |}.

(** The same host, with [getPageTree] rejecting. *)
Definition host_pageTree_rejects : Host :=
  {| window := window host_ok;
     plugConfig := plugConfig host_ok;
     env := env host_ok;
     enabledReadFault := enabledReadFault host_ok;
     enabledWriteFault := enabledWriteFault host_ok;
     hidePanelAnswer := hidePanelAnswer host_ok;
     showPanelAnswer := showPanelAnswer host_ok;
     assetAnswer := assetAnswer host_ok;
     assetSettles := assetSettles host_ok;
     pageTreeAnswer := fun _ => Rejected "page tree unavailable";
     customStylesAnswer := customStylesAnswer host_ok |}.

(** The same host, with the write of the preference rejecting for [true]. *)
Definition host_enable_rejects : Host :=
  {| window := window host_ok;
     plugConfig := plugConfig host_ok;
     env := env host_ok;
     enabledReadFault := enabledReadFault host_ok;
     enabledWriteFault :=
       fun value => if value then Some "store unavailable" else None;
     hidePanelAnswer := hidePanelAnswer host_ok;
     showPanelAnswer := showPanelAnswer host_ok;
     assetAnswer := assetAnswer host_ok;
     assetSettles := assetSettles host_ok;
     pageTreeAnswer := pageTreeAnswer host_ok;
     customStylesAnswer := customStylesAnswer host_ok |}.

(** The same host, with the read of one icon rejecting. *)
Definition host_asset_rejects : Host :=
  {| window := window host_ok;
     plugConfig := plugConfig host_ok;
     env := env host_ok;
     enabledReadFault := enabledReadFault host_ok;
     enabledWriteFault := enabledWriteFault host_ok;
     hidePanelAnswer := hidePanelAnswer host_ok;
     showPanelAnswer := showPanelAnswer host_ok;
     assetAnswer :=
       fun _ path =>
         if String.eqb path "assets/icons/refresh-cw.svg"
         then Rejected "asset not found"
         else Resolved path;
     assetSettles := assetSettles host_ok;
     pageTreeAnswer := pageTreeAnswer host_ok;
     customStylesAnswer := customStylesAnswer host_ok |}.

(** The host on the server: no [window], [getEnv] answers ["server"]. *)
Definition host_server : Host :=
  {| window := None;
     plugConfig := plugConfig host_ok;
     env := Resolved "server";
     enabledReadFault := enabledReadFault host_ok;
     enabledWriteFault := enabledWriteFault host_ok;
     hidePanelAnswer := hidePanelAnswer host_ok;
     showPanelAnswer := showPanelAnswer host_ok;
     assetAnswer := assetAnswer host_ok;
     assetSettles := assetSettles host_ok;
     pageTreeAnswer := pageTreeAnswer host_ok;
     customStylesAnswer := customStylesAnswer host_ok |}.

(** The same host, with [showPanel] rejecting. *)
Definition host_showPanel_rejects : Host :=
  {| window := window host_ok;
     plugConfig := plugConfig host_ok;
     env := env host_ok;
     enabledReadFault := enabledReadFault host_ok;
     enabledWriteFault := enabledWriteFault host_ok;
     hidePanelAnswer := hidePanelAnswer host_ok;
     showPanelAnswer := fun _ _ _ _ => Rejected "panel unavailable";
     assetAnswer := assetAnswer host_ok;
     assetSettles := assetSettles host_ok;
     pageTreeAnswer := pageTreeAnswer host_ok;
     customStylesAnswer := customStylesAnswer host_ok |}.

(** The same host, with [hidePanel] rejecting. *)
Definition host_hidePanel_rejects : Host :=
  {| window := window host_ok;
     plugConfig := plugConfig host_ok;
     env := env host_ok;
     enabledReadFault := enabledReadFault host_ok;
     enabledWriteFault := enabledWriteFault host_ok;
     hidePanelAnswer := fun _ => Rejected "panel unavailable";
     showPanelAnswer := showPanelAnswer host_ok;
     assetAnswer := assetAnswer host_ok;
     assetSettles := assetSettles host_ok;
     pageTreeAnswer := pageTreeAnswer host_ok;
     customStylesAnswer := customStylesAnswer host_ok |}.

(** The same host, with the write of the preference rejecting for [false]. *)
Definition host_disable_rejects : Host :=
  {| window := window host_ok;
     plugConfig := plugConfig host_ok;
     env := env host_ok;
     enabledReadFault := enabledReadFault host_ok;
     enabledWriteFault :=
       fun value => if value then None else Some "store unavailable";
     hidePanelAnswer := hidePanelAnswer host_ok;
     showPanelAnswer := showPanelAnswer host_ok;
     assetAnswer := assetAnswer host_ok;
     assetSettles := assetSettles host_ok;
     pageTreeAnswer := pageTreeAnswer host_ok;
     customStylesAnswer := customStylesAnswer host_ok |}.

(** The same host, with the read of the preference rejecting. *)
Definition host_read_rejects : Host :=
  {| window := window host_ok;
     plugConfig := plugConfig host_ok;
     env := env host_ok;
     enabledReadFault := Some "store unavailable";
     enabledWriteFault := enabledWriteFault host_ok;
     hidePanelAnswer := hidePanelAnswer host_ok;
     showPanelAnswer := showPanelAnswer host_ok;
     assetAnswer := assetAnswer host_ok;
     assetSettles := assetSettles host_ok;
     pageTreeAnswer := pageTreeAnswer host_ok;
     customStylesAnswer := customStylesAnswer host_ok |}.

(** Two asset reads reject; the later one in the array settles first. *)
Definition host_two_assets_reject : Host :=
  {| window := window host_ok;
     plugConfig := plugConfig host_ok;
     env := env host_ok;
     enabledReadFault := enabledReadFault host_ok;
     enabledWriteFault := enabledWriteFault host_ok;
     hidePanelAnswer := hidePanelAnswer host_ok;
     showPanelAnswer := showPanelAnswer host_ok;
     assetAnswer :=
       fun _ path =>
         if String.eqb path "assets/treeview.css" then Rejected "css missing"
         else if String.eqb path "assets/icons/x-circle.svg"
              then Rejected "icon missing"
              else Resolved path;
     assetSettles :=
       fun path =>
         if String.eqb path "assets/icons/x-circle.svg" then 1%nat else 5%nat;
     pageTreeAnswer := pageTreeAnswer host_ok;
     customStylesAnswer := customStylesAnswer host_ok |}.

Definition narrow_window : Window := {| innerWidth := 400 |}.

(** A cooperating browser host with the adaptive configuration, on a narrow
    and on a wide viewport. *)
Definition host_adaptive (win : Window) : Host :=
  {| window := Some win;
     plugConfig := Resolved config_adaptive_right;
     env := env host_ok;
     enabledReadFault := enabledReadFault host_ok;
     enabledWriteFault := enabledWriteFault host_ok;
     hidePanelAnswer := hidePanelAnswer host_ok;
     showPanelAnswer := showPanelAnswer host_ok;
     assetAnswer := assetAnswer host_ok;
     assetSettles := assetSettles host_ok;
     pageTreeAnswer := pageTreeAnswer host_ok;
     customStylesAnswer := customStylesAnswer host_ok |}.

Definition world_shown_modal : World :=
  {| currentPosition := Some modal; treeViewEnabled := true; calls := [] |}.

(** Process start with the preference off; the tree shown on the right with
    the preference on; the preference on but nothing shown yet. *)
Definition world_hidden : World :=
  {| currentPosition := None; treeViewEnabled := false; calls := [] |}.

Definition world_shown_right : World :=
  {| currentPosition := Some right_side; treeViewEnabled := true; calls := [] |}.

Definition world_shown_left : World :=
  {| currentPosition := Some left_side; treeViewEnabled := true; calls := [] |}.

Definition world_enabled_not_shown : World :=
  {| currentPosition := None; treeViewEnabled := true; calls := [] |}.

(** ** The lifecycle controller *)

Section Controller.

(** [PLUG_NAME] and [PLUG_DISPLAY_NAME] are constants of config.ts, which is
    not part of the sources at hand; the controller is read for any value of
    them. *)
Variables PLUG_NAME PLUG_DISPLAY_NAME : string.

(** [hideTree], lines 49-55. *)
Definition hideTree (h : Host) : Promise unit :=
  shown <- read_currentPosition ;;
  match shown with
  | Some p =>
      editor_hidePanel h p ;;
      assign_currentPosition None ;;
      setTreeViewEnabled h false
  | None => resolve tt
  end.

(** [showTree], lines 78-170.  The array that [Promise.all] resolves to has
    one entry per asset read; its destructuring is positional. *)
Definition showTree (h : Host) : Promise unit :=
  config <- getPlugConfig h ;;
  let adaptivePosition := getAdaptivePosition (window h) config in
  shown <- read_currentPosition ;;
  (if truthy shown && strict_neq adaptivePosition shown
   then hideTree h
   else resolve tt) ;;
  assets <- Promise_all (map (asset_readAsset h PLUG_NAME) assetPaths) ;;
  let sortableTreeCss := nth 0 assets "" in
  let sortableTreeJs := nth 1 assets "" in
  let plugCss := nth 2 assets "" in
  let plugJs := nth 3 assets "" in
  let iconFolderMinus := nth 4 assets "" in
  let iconFolderPlus := nth 5 assets "" in
  let iconNavigation2 := nth 6 assets "" in
  let iconRefresh := nth 7 assets "" in
  let iconXCircle := nth 8 assets "" in
  tree <- getPageTree h config ;;
  customStyles <- getCustomStyles h ;;
  editor_showPanel h adaptivePosition (size config)
    (panelHtml sortableTreeCss plugCss customStyles
       iconFolderPlus iconFolderMinus iconNavigation2 iconRefresh iconXCircle)
    (panelScript sortableTreeJs plugJs (treeViewConfig tree config)
       (autoMobileMode config)) ;;
  setTreeViewEnabled h true ;;
  assign_currentPosition (Some adaptivePosition).

(** [toggleTree], lines 37-44. *)
Definition toggleTree (h : Host) : Promise unit :=
  currentValue <- isTreeViewEnabled h ;;
  if negb currentValue then showTree h else hideTree h.

(** [showTreeIfEnabled], lines 60-73. *)
Definition showTreeIfEnabled (h : Host) : Promise unit :=
  try_catch
    (environment <- system_getEnv h ;;
     if String.eqb environment "server" then resolve tt
     else
       isEnabled <- isTreeViewEnabled h ;;
       if isEnabled then showTree h else resolve tt)
    (fun err =>
       console_error (PLUG_DISPLAY_NAME ++ ": showTreeIfEnabled failed") err).

(** *** Vocabulary of the statements *)

(** The calls that the batch of asset reads issues. *)
Definition assetReads : list Event :=
  map (CallReadAsset PLUG_NAME) assetPaths.

(** Every one of the nine asset reads resolves. *)
Definition assets_resolve (h : Host) : bool :=
  forallb (fun path => resolves (assetAnswer h PLUG_NAME path)) assetPaths.

(** A panel is shown at another position than [target]: the test of
    line 82. *)
Definition stale (target : Position) (w : World) : bool :=
  truthy (currentPosition w) && strict_neq target (currentPosition w).

(** Whatever panel has to be hidden first, hiding it succeeds. *)
Definition hide_succeeds (h : Host) (target : Position) (w : World) : Prop :=
  forall P, currentPosition w = Some P -> P <> target ->
    hidePanelAnswer h P = Resolved tt /\ enabledWriteFault h false = None.

(** The world of [showTree] when it reaches line 89 after a successful
    start: the configuration was loaded, and the panel shown at another
    position than [target], if any, was hidden. *)
Definition hidden_first (target : Position) (w : World) : World :=
  match currentPosition w with
  | Some P =>
      if Position_eqb target P then logged [CallGetPlugConfig] w
      else
        {| currentPosition := None;
           treeViewEnabled := false;
           calls := calls w ++
             [CallGetPlugConfig; CallHidePanel P; CallSetTreeViewEnabled false] |}
  | None => logged [CallGetPlugConfig] w
  end.

(** No collaborator rejects, whatever it is asked. *)
Definition never_rejects (h : Host) : Prop :=
  (exists config, plugConfig h = Resolved config) /\
  (exists environment, env h = Resolved environment) /\
  enabledReadFault h = None /\
  (forall value, enabledWriteFault h value = None) /\
  (forall p, hidePanelAnswer h p = Resolved tt) /\
  (forall p panel_size html script,
      showPanelAnswer h p panel_size html script = Resolved tt) /\
  assets_resolve h = true /\
  (forall config, exists tree, pageTreeAnswer h config = Resolved tree) /\
  (exists styles, customStylesAnswer h = Resolved styles).

(** Lines 89-169 of [showTree] on their own. *)
Definition fetch_and_show (h : Host) (config : TreeViewConfig)
  (adaptivePosition : Position) : Promise unit :=
  assets <- Promise_all (map (asset_readAsset h PLUG_NAME) assetPaths) ;;
  tree <- getPageTree h config ;;
  customStyles <- getCustomStyles h ;;
  editor_showPanel h adaptivePosition (size config)
    (panelHtml (nth 0 assets "") (nth 2 assets "") customStyles
       (nth 5 assets "") (nth 4 assets "") (nth 6 assets "")
       (nth 7 assets "") (nth 8 assets ""))
    (panelScript (nth 1 assets "") (nth 3 assets "")
       (treeViewConfig tree config) (autoMobileMode config)) ;;
  setTreeViewEnabled h true ;;
  assign_currentPosition (Some adaptivePosition).

(** What [showTree] hands to [editor.showPanel] once every fetch has
    resolved. *)
Definition fetchedAssets (h : Host) : list string :=
  resolved_values (map (asset_readAsset h PLUG_NAME) assetPaths).

Definition shownHtml (h : Host) (styles : option string) : string :=
  let assets := fetchedAssets h in
  panelHtml (nth 0 assets "") (nth 2 assets "") styles
    (nth 5 assets "") (nth 4 assets "") (nth 6 assets "")
    (nth 7 assets "") (nth 8 assets "").

Definition shownScript (h : Host) (config : TreeViewConfig)
  (tree : PageTreeResult) : string :=
  let assets := fetchedAssets h in
  panelScript (nth 1 assets "") (nth 3 assets "")
    (treeViewConfig tree config) (autoMobileMode config).

Definition showPanelCall (h : Host) (config : TreeViewConfig)
  (target : Position) (tree : PageTreeResult) (styles : option string) : Event :=
  CallShowPanel target (size config) (shownHtml h styles)
    (shownScript h config tree).

(** [toggleTree] invoked once per host of the list, one after the other;
    the world after the last invocation. *)
Fixpoint toggle_repeatedly (hosts : list Host) (w : World) : World :=
  match hosts with
  | [] => w
  | h :: later => toggle_repeatedly later (snd (toggleTree h w))
  end.

(** The preference is on whenever a panel is recorded as shown. *)
Definition shown_implies_enabled (w : World) : Prop :=
  currentPosition w <> None -> treeViewEnabled w = true.


(** ** Properties *)

Arguments panelHtml : simpl never.
Arguments panelScript : simpl never.

Lemma showTree_stages (h : Host) (w : World) :
  showTree h w =
  (config <- getPlugConfig h ;;
   shown <- read_currentPosition ;;
   (if truthy shown && strict_neq (getAdaptivePosition (window h) config) shown
    then hideTree h else resolve tt) ;;
   fetch_and_show h config (getAdaptivePosition (window h) config)) w.
Proof. reflexivity. Qed.

(** *** Worlds and logs *)

Lemma logged_logged (a b : list Event) (w : World) :
  logged b (logged a w) = logged (a ++ b) w.
Proof.
  unfold logged; simpl. now rewrite app_assoc.
Qed.

Lemma count_showPanel_app (a b : list Event) :
  count_showPanel (a ++ b) = (count_showPanel a + count_showPanel b)%nat.
Proof.
  unfold count_showPanel. now rewrite filter_app, length_app.
Qed.

Lemma count_hidePanel_app (a b : list Event) :
  count_hidePanel (a ++ b) = (count_hidePanel a + count_hidePanel b)%nat.
Proof.
  unfold count_hidePanel. now rewrite filter_app, length_app.
Qed.

Lemma Position_eqb_eq (a b : Position) : Position_eqb a b = true <-> a = b.
Proof.
  destruct a, b; simpl; split; intros H; try reflexivity; discriminate H.
Qed.

Lemma Position_eqb_refl (a : Position) : Position_eqb a a = true.
Proof. now apply Position_eqb_eq. Qed.

Lemma Position_eqb_neq (a b : Position) : Position_eqb a b = false <-> a <> b.
Proof.
  split.
  - intros H E. apply Position_eqb_eq in E. congruence.
  - intros H. destruct (Position_eqb a b) eqn:E; [|reflexivity].
    apply Position_eqb_eq in E. contradiction.
Qed.

(** *** [Promise.all] *)

Lemma first_rejection_none {A : Type} (batch : list (Pending A)) :
  forallb (fun p => resolves (settlesWith p)) batch = true ->
  first_rejection batch = None.
Proof.
  induction batch as [|p rest IH]; simpl; intros H; [reflexivity|].
  apply andb_true_iff in H as [Hp Hrest].
  destruct (settlesWith p); [now apply IH | discriminate Hp].
Qed.

Lemma first_rejection_some {A : Type} (batch : list (Pending A)) :
  forallb (fun p => resolves (settlesWith p)) batch = false ->
  exists t e, first_rejection batch = Some (t, e).
Proof.
  induction batch as [|p rest IH]; simpl; intros H; [discriminate H|].
  destruct (settlesWith p) as [a|e]; simpl in H.
  - now apply IH.
  - destruct (first_rejection rest) as [[t' e']|]; [|now eauto].
    destruct (t' <? settlesAt p)%nat; eauto.
Qed.

(** The rejection of a batch is the rejection of one of its members. *)
Lemma first_rejection_member {A : Type} (batch : list (Pending A)) t e :
  first_rejection batch = Some (t, e) ->
  exists p, In p batch /\ settlesWith p = Rejected e /\ settlesAt p = t.
Proof.
  revert t e.
  induction batch as [|p rest IH]; simpl; intros t e H; [discriminate H|].
  destruct (settlesWith p) as [a|e0] eqn:Ep.
  - destruct (IH _ _ H) as (p' & Hin & Hp'). eauto.
  - destruct (first_rejection rest) as [[t' e']|] eqn:Er.
    + destruct (t' <? settlesAt p)%nat; inversion H; subst.
      * destruct (IH _ _ eq_refl) as (p' & Hin & Hp'). eauto.
      * eauto.
    + inversion H; subst. eauto.
Qed.

Lemma Promise_all_resolved {A : Type} (batch : list (Pending A)) (w : World) :
  forallb (fun p => resolves (settlesWith p)) batch = true ->
  Promise_all batch w = (Resolved (resolved_values batch), logged (map issued batch) w).
Proof.
  intros H. unfold Promise_all. now rewrite (first_rejection_none _ H).
Qed.

Lemma Promise_all_rejected {A : Type} (batch : list (Pending A)) (w : World) :
  forallb (fun p => resolves (settlesWith p)) batch = false ->
  exists e, Promise_all batch w = (Rejected e, logged (map issued batch) w).
Proof.
  intros H. unfold Promise_all.
  destruct (first_rejection_some _ H) as (t & e & E). rewrite E. eauto.
Qed.

Lemma asset_batch_resolves (h : Host) :
  forallb (fun p => resolves (settlesWith p))
    (map (asset_readAsset h PLUG_NAME) assetPaths) = assets_resolve h.
Proof. reflexivity. Qed.

Lemma asset_batch_issued (h : Host) :
  map issued (map (asset_readAsset h PLUG_NAME) assetPaths) = assetReads.
Proof. reflexivity. Qed.

(** *** [hideTree] *)

Lemma hideTree_not_shown (h : Host) (w : World) :
  currentPosition w = None -> hideTree h w = (Resolved tt, w).
Proof.
  intros H. unfold hideTree, bind, read_currentPosition. now rewrite H.
Qed.

Lemma hideTree_shown (h : Host) (w : World) (P : Position) :
  currentPosition w = Some P ->
  hidePanelAnswer h P = Resolved tt ->
  hideTree h w =
  (match enabledWriteFault h false with
   | Some e => Rejected e
   | None => Resolved tt
   end,
   {| currentPosition := None;
      treeViewEnabled :=
        match enabledWriteFault h false with
        | Some _ => treeViewEnabled w
        | None => false
        end;
      calls := calls w ++ [CallHidePanel P; CallSetTreeViewEnabled false] |}).
Proof.
  intros Hw Hhide.
  unfold hideTree, bind, read_currentPosition. rewrite Hw.
  unfold editor_hidePanel, call, bind, log, settle. rewrite Hhide.
  unfold assign_currentPosition, setTreeViewEnabled, bind, log, logged; simpl.
  rewrite <- app_assoc; simpl.
  destruct (enabledWriteFault h false); reflexivity.
Qed.

Lemma hideTree_rejected (h : Host) (w : World) (P : Position) (e : Err) :
  currentPosition w = Some P ->
  hidePanelAnswer h P = Rejected e ->
  hideTree h w = (Rejected e, logged [CallHidePanel P] w).
Proof.
  intros Hw Hhide.
  unfold hideTree, bind, read_currentPosition. rewrite Hw.
  unfold editor_hidePanel, call, bind, log, settle. now rewrite Hhide.
Qed.

(** *** [showTree], stage by stage *)

Lemma showTree_config_rejected (h : Host) (w : World) (e : Err) :
  plugConfig h = Rejected e ->
  showTree h w = (Rejected e, logged [CallGetPlugConfig] w).
Proof.
  intros H. rewrite showTree_stages.
  unfold bind at 1. unfold getPlugConfig, call, bind, log, settle.
  now rewrite H.
Qed.

Lemma showTree_not_stale (h : Host) (w : World) (config : TreeViewConfig) :
  plugConfig h = Resolved config ->
  stale (getAdaptivePosition (window h) config) w = false ->
  showTree h w =
  fetch_and_show h config (getAdaptivePosition (window h) config)
    (logged [CallGetPlugConfig] w).
Proof.
  intros Hc Hs. rewrite showTree_stages.
  unfold bind at 1. unfold getPlugConfig, call, bind at 1, log, settle.
  rewrite Hc. unfold bind at 1, read_currentPosition.
  unfold stale in Hs. simpl. rewrite Hs. reflexivity.
Qed.

Lemma showTree_stale (h : Host) (w : World) (config : TreeViewConfig) :
  plugConfig h = Resolved config ->
  stale (getAdaptivePosition (window h) config) w = true ->
  showTree h w =
  (hideTree h ;;
   fetch_and_show h config (getAdaptivePosition (window h) config))
    (logged [CallGetPlugConfig] w).
Proof.
  intros Hc Hs. rewrite showTree_stages.
  unfold bind at 1. unfold getPlugConfig, call, bind at 1, log, settle.
  rewrite Hc. unfold bind at 1, read_currentPosition.
  unfold stale in Hs. simpl. rewrite Hs. reflexivity.
Qed.

Lemma stale_false_iff (target : Position) (w : World) :
  stale target w = false <->
  currentPosition w = None \/ currentPosition w = Some target.
Proof.
  unfold stale. destruct (currentPosition w) as [P|]; simpl.
  - rewrite negb_false_iff, Position_eqb_eq. split.
    + intros ->. now right.
    + intros [H|H]; [discriminate H | now inversion H].
  - split; [now left | reflexivity].
Qed.

Lemma stale_true_iff (target : Position) (w : World) :
  stale target w = true <->
  exists P, currentPosition w = Some P /\ P <> target.
Proof.
  unfold stale. destruct (currentPosition w) as [P|]; simpl.
  - rewrite negb_true_iff, Position_eqb_neq. split.
    + intros H. exists P. split; [reflexivity | congruence].
    + intros (P' & E & H). inversion E; subst. congruence.
  - split; [discriminate | intros (P & E & _); discriminate E].
Qed.

Lemma hidden_first_not_stale (target : Position) (w : World) :
  stale target w = false ->
  hidden_first target w = logged [CallGetPlugConfig] w.
Proof.
  intros H. apply stale_false_iff in H. unfold hidden_first.
  destruct H as [H|H]; rewrite H; [reflexivity|].
  now rewrite Position_eqb_refl.
Qed.

Lemma hidden_first_stale (target P : Position) (w : World) :
  currentPosition w = Some P -> P <> target ->
  hidden_first target w =
  {| currentPosition := None;
     treeViewEnabled := false;
     calls := calls w ++
       [CallGetPlugConfig; CallHidePanel P; CallSetTreeViewEnabled false] |}.
Proof.
  intros H N. unfold hidden_first. rewrite H.
  assert (E : Position_eqb target P = false) by (apply Position_eqb_neq; congruence).
  now rewrite E.
Qed.

(** Once the configuration is loaded and the panel in the way is hidden,
    [showTree] is its lines 89-169 run from [hidden_first]. *)
Lemma showTree_reaches_fetch (h : Host) (w : World) (config : TreeViewConfig) :
  plugConfig h = Resolved config ->
  hide_succeeds h (getAdaptivePosition (window h) config) w ->
  showTree h w =
  fetch_and_show h config (getAdaptivePosition (window h) config)
    (hidden_first (getAdaptivePosition (window h) config) w).
Proof.
  intros Hc Hh.
  destruct (stale (getAdaptivePosition (window h) config) w) eqn:Hs.
  - rewrite (showTree_stale _ _ _ Hc Hs).
    apply stale_true_iff in Hs as (P & HP & HN).
    destruct (Hh P HP HN) as [Hhide Hwrite].
    rewrite (hidden_first_stale _ _ _ HP HN).
    unfold bind at 1.
    rewrite (hideTree_shown h (logged [CallGetPlugConfig] w) P HP Hhide).
    rewrite Hwrite. simpl. rewrite <- app_assoc. reflexivity.
  - rewrite (showTree_not_stale _ _ _ Hc Hs).
    now rewrite hidden_first_not_stale.
Qed.

(** Lines 89-169 when the batch of asset reads rejects. *)
Lemma fetch_and_show_assets_rejected (h : Host) (config : TreeViewConfig)
  (target : Position) (w : World) :
  assets_resolve h = false ->
  exists e, fetch_and_show h config target w = (Rejected e, logged assetReads w).
Proof.
  intros H. unfold fetch_and_show, bind at 1.
  rewrite <- asset_batch_resolves in H.
  destruct (Promise_all_rejected _ w H) as (e & E).
  rewrite E, asset_batch_issued. eauto.
Qed.

(** Lines 89-169 when the batch of asset reads resolves: what happens next,
    by the answers of the collaborators in the order they are asked. *)
Lemma fetch_and_show_run (h : Host) (config : TreeViewConfig)
  (target : Position) (w : World) :
  assets_resolve h = true ->
  fetch_and_show h config target w =
  match pageTreeAnswer h config with
  | Rejected e =>
      (Rejected e, logged (assetReads ++ [CallGetPageTree config]) w)
  | Resolved tree =>
      match customStylesAnswer h with
      | Rejected e =>
          (Rejected e,
           logged (assetReads ++ [CallGetPageTree config; CallGetCustomStyles]) w)
      | Resolved styles =>
          match showPanelAnswer h target (size config) (shownHtml h styles)
                  (shownScript h config tree) with
          | Rejected e =>
              (Rejected e,
               logged (assetReads ++
                 [CallGetPageTree config; CallGetCustomStyles;
                  showPanelCall h config target tree styles]) w)
          | Resolved _ =>
              match enabledWriteFault h true with
              | Some e =>
                  (Rejected e,
                   logged (assetReads ++
                     [CallGetPageTree config; CallGetCustomStyles;
                      showPanelCall h config target tree styles;
                      CallSetTreeViewEnabled true]) w)
              | None =>
                  (Resolved tt,
                   {| currentPosition := Some target;
                      treeViewEnabled := true;
                      calls := calls w ++ assetReads ++
                        [CallGetPageTree config; CallGetCustomStyles;
                         showPanelCall h config target tree styles;
                         CallSetTreeViewEnabled true] |})
              end
          end
      end
  end.
Proof.
  intros H. unfold fetch_and_show, bind at 1.
  rewrite <- asset_batch_resolves in H.
  rewrite (Promise_all_resolved _ w H), asset_batch_issued.
  fold (fetchedAssets h).
  unfold getPageTree, getCustomStyles, editor_showPanel, setTreeViewEnabled,
    assign_currentPosition, call, bind, log, settle, reject.
  destruct (pageTreeAnswer h config) as [tree|e].
  2:{ now rewrite logged_logged. }
  destruct (customStylesAnswer h) as [styles|e].
  2:{ now rewrite !logged_logged, <- ?app_assoc. }
  fold (shownHtml h styles). fold (shownScript h config tree).
  fold (showPanelCall h config target tree styles).
  destruct (showPanelAnswer h target (size config) (shownHtml h styles)
              (shownScript h config tree)) as [[]|e].
  2:{ now rewrite !logged_logged, <- ?app_assoc. }
  destruct (enabledWriteFault h true) as [e|].
  - now rewrite !logged_logged, <- ?app_assoc.
  - unfold logged; simpl. now rewrite <- ?app_assoc.
Qed.

(** Lines 89-169 never call [hidePanel]. *)
Lemma fetch_and_show_no_hide (h : Host) (config : TreeViewConfig)
  (target : Position) (w : World) :
  exists new : list Event,
    calls (snd (fetch_and_show h config target w)) = (calls w ++ new)%list /\
    count_hidePanel new = 0%nat.
Proof.
  destruct (assets_resolve h) eqn:Ha.
  - rewrite (fetch_and_show_run _ _ _ _ Ha).
    destruct (pageTreeAnswer h config) as [tree|e]; simpl.
    2:{ eexists; split; reflexivity. }
    destruct (customStylesAnswer h) as [styles|e]; simpl.
    2:{ eexists; split; reflexivity. }
    destruct (showPanelAnswer h target (size config) (shownHtml h styles)
                (shownScript h config tree)) as [[]|e]; simpl.
    2:{ eexists; split; reflexivity. }
    destruct (enabledWriteFault h true) as [e|]; simpl;
      eexists; split; reflexivity.
  - destruct (fetch_and_show_assets_rejected h config target w Ha) as (e & E).
    rewrite E; simpl. eexists; split; reflexivity.
Qed.

(** Lines 89-169 assign [currentPosition] on no path that rejects. *)
Lemma fetch_and_show_rejected_position (h : Host) (config : TreeViewConfig)
  (target : Position) (w : World) (e : Err) :
  fst (fetch_and_show h config target w) = Rejected e ->
  currentPosition (snd (fetch_and_show h config target w)) = currentPosition w.
Proof.
  destruct (assets_resolve h) eqn:Ha.
  - rewrite (fetch_and_show_run _ _ _ _ Ha).
    destruct (pageTreeAnswer h config) as [tree|e1]; [|reflexivity].
    destruct (customStylesAnswer h) as [styles|e1]; [|reflexivity].
    destruct (showPanelAnswer h target (size config) (shownHtml h styles)
                (shownScript h config tree)) as [[]|e1]; [|reflexivity].
    destruct (enabledWriteFault h true) as [e1|]; simpl; [reflexivity|].
    discriminate.
  - destruct (fetch_and_show_assets_rejected h config target w Ha) as (e1 & E).
    now rewrite E.
Qed.

(** *** The position resolver *)

(** C8. With [autoMobileMode] off, the position resolver returns
    [config.position] whatever the viewport width, and whether there is a
    viewport at all. *)
Theorem getAdaptivePosition_fixed (window : option Window)
  (config : TreeViewConfig) :
  autoMobileMode config = false ->
  getAdaptivePosition window config = position config.
Proof.
  intros H. unfold getAdaptivePosition. now rewrite H.
Qed.

(** C4, as amended.  With [autoMobileMode] on and a viewport of width [w]:
    the resolver returns ["modal"] when [w <= config.mobileThreshold] and
    [config.position] otherwise, so that it returns ["modal"] exactly when
    [w <= config.mobileThreshold] provided [config.position] is not itself
    ["modal"]; without a viewport it returns [config.position]. *)
Theorem getAdaptivePosition_adaptive (config : TreeViewConfig) :
  autoMobileMode config = true ->
  (forall win, innerWidth win <= mobileThreshold config ->
     getAdaptivePosition (Some win) config = modal) /\
  (forall win, ~ innerWidth win <= mobileThreshold config ->
     getAdaptivePosition (Some win) config = position config) /\
  (position config <> modal ->
   forall win, getAdaptivePosition (Some win) config = modal <->
               innerWidth win <= mobileThreshold config) /\
  getAdaptivePosition None config = position config.
Proof.
  intros H. unfold getAdaptivePosition. rewrite H. simpl.
  repeat split.
  - intros win Hw. apply Z.leb_le in Hw. now rewrite Hw.
  - intros win Hw. apply Z.leb_nle in Hw. now rewrite Hw.
  - destruct (Z.leb_spec (innerWidth win) (mobileThreshold config)) as [Hw|Hw].
    + intros _. exact Hw.
    + intros E. contradiction.
  - intros Hw. apply Z.leb_le in Hw. now rewrite Hw.
Qed.

(** *** [hideTree] and [toggleTree] *)

(** C6. [hideTree] when nothing is shown does nothing: no call, no change
    of state or preference.  From a tree shown at [P], two calls in a row
    make one [hidePanel] call in all, and nothing is shown after either. *)
Theorem hideTree_idempotent (h1 h2 : Host) (w : World) :
  (currentPosition w = None -> hideTree h1 w = (Resolved tt, w)) /\
  (forall P,
     currentPosition w = Some P ->
     hidePanelAnswer h1 P = Resolved tt ->
     let w1 := snd (hideTree h1 w) in
     let w2 := snd (hideTree h2 w1) in
     currentPosition w1 = None /\
     calls w1 = (calls w ++ [CallHidePanel P; CallSetTreeViewEnabled false])%list /\
     (enabledWriteFault h1 false = None ->
        fst (hideTree h1 w) = Resolved tt /\ treeViewEnabled w1 = false) /\
     hideTree h2 w1 = (Resolved tt, w1) /\
     currentPosition w2 = None /\
     count_hidePanel (calls w1) = (count_hidePanel (calls w) + 1)%nat /\
     count_hidePanel (calls w2) = (count_hidePanel (calls w) + 1)%nat).
Proof.
  split.
  - apply hideTree_not_shown.
  - intros P HP Hhide w1 w2. subst w2 w1.
    rewrite (hideTree_shown h1 w P HP Hhide). simpl.
    rewrite hideTree_not_shown by reflexivity. simpl.
    rewrite count_hidePanel_app.
    repeat split; try reflexivity.
    all: match goal with Hw : enabledWriteFault _ _ = None |- _ => now rewrite Hw end.
Qed.

(** C9. With the preference on and nothing shown, [toggleTree] goes to
    [hideTree], which does nothing: no [showPanel], no [hidePanel], the
    preference stays on, and calling it again and again changes nothing. *)
Theorem toggleTree_enabled_not_shown (h : Host) (w : World) :
  treeViewEnabled w = true ->
  currentPosition w = None ->
  toggleTree h w =
    (match enabledReadFault h with
     | Some e => Rejected e
     | None => Resolved tt
     end,
     logged [CallIsTreeViewEnabled] w) /\
  (forall hosts,
     let w' := toggle_repeatedly hosts w in
     currentPosition w' = None /\
     treeViewEnabled w' = true /\
     calls w' = (calls w ++ repeat CallIsTreeViewEnabled (length hosts))%list /\
     count_showPanel (calls w') = count_showPanel (calls w) /\
     count_hidePanel (calls w') = count_hidePanel (calls w)).
Proof.
  assert (once : forall h0 w0,
    treeViewEnabled w0 = true -> currentPosition w0 = None ->
    toggleTree h0 w0 =
      (match enabledReadFault h0 with
       | Some e => Rejected e
       | None => Resolved tt
       end,
       logged [CallIsTreeViewEnabled] w0)).
  { intros h0 w0 He Hp.
    unfold toggleTree, isTreeViewEnabled, bind, log, reject.
    destruct (enabledReadFault h0) as [e|]; [reflexivity|].
    simpl. rewrite He. simpl.
    now rewrite hideTree_not_shown. }
  intros He Hp. split; [now apply once|].
  intros hosts. revert w He Hp.
  induction hosts as [|h0 later IH]; intros w He Hp; simpl.
  - rewrite app_nil_r. repeat split; assumption.
  - rewrite (once h0 w He Hp). simpl.
    destruct (IH (logged [CallIsTreeViewEnabled] w) He Hp)
      as (Hp' & He' & Hc' & Hs' & Hh').
    repeat split; try assumption.
    + rewrite Hc'. simpl. now rewrite <- app_assoc.
    + rewrite Hs'. simpl. rewrite count_showPanel_app.
      change (count_showPanel [CallIsTreeViewEnabled]) with 0%nat. lia.
    + rewrite Hh'. simpl. rewrite count_hidePanel_app.
      change (count_hidePanel [CallIsTreeViewEnabled]) with 0%nat. lia.
Qed.

Lemma never_rejects_hide (h : Host) (target : Position) (w : World) :
  never_rejects h -> hide_succeeds h target w.
Proof.
  intros (_ & _ & _ & Hwrite & Hhide & _) P _ _. split; [apply Hhide | apply Hwrite].
Qed.

(** C5. From the preference off and nothing shown, with collaborators that
    answer: [toggleTree] makes exactly one [showPanel] call and turns the
    preference on; [toggleTree] again makes exactly one [hidePanel] call and
    turns the preference off. *)
Theorem toggleTree_show_then_hide (h1 h2 : Host) (w : World) :
  never_rejects h1 ->
  never_rejects h2 ->
  treeViewEnabled w = false ->
  currentPosition w = None ->
  exists w1 w2,
    toggleTree h1 w = (Resolved tt, w1) /\
    treeViewEnabled w1 = true /\
    currentPosition w1 <> None /\
    count_showPanel (calls w1) = (count_showPanel (calls w) + 1)%nat /\
    count_hidePanel (calls w1) = count_hidePanel (calls w) /\
    toggleTree h2 w1 = (Resolved tt, w2) /\
    treeViewEnabled w2 = false /\
    currentPosition w2 = None /\
    count_hidePanel (calls w2) = (count_hidePanel (calls w1) + 1)%nat /\
    count_showPanel (calls w2) = count_showPanel (calls w1).
Proof.
  intros N1 N2 He Hp.
  destruct N1 as ((config & Hc) & _ & Hread1 & Hwrite1 & _ & Hshow1 & Ha1
                  & Htree1 & (styles & Hs1)).
  destruct (Htree1 config) as (tree & Ht1).
  destruct N2 as (_ & _ & Hread2 & Hwrite2 & Hhide2 & _).
  set (target := getAdaptivePosition (window h1) config).
  (* the first call goes to showTree *)
  assert (E1 : toggleTree h1 w =
    (Resolved tt,
     {| currentPosition := Some target;
        treeViewEnabled := true;
        calls := ((calls w ++ [CallIsTreeViewEnabled]) ++ [CallGetPlugConfig]) ++
          assetReads ++
          [CallGetPageTree config; CallGetCustomStyles;
           showPanelCall h1 config target tree styles;
           CallSetTreeViewEnabled true] |})).
  { unfold toggleTree, isTreeViewEnabled, bind, log. rewrite Hread1. simpl.
    rewrite He. simpl.
    rewrite (showTree_reaches_fetch h1 _ config Hc).
    2:{ intros P HP. simpl in HP. rewrite Hp in HP. discriminate HP. }
    fold target. rewrite hidden_first_not_stale.
    2:{ apply stale_false_iff. now left. }
    rewrite (fetch_and_show_run _ _ _ _ Ha1), Ht1, Hs1, Hshow1, Hwrite1.
    reflexivity. }
  match type of E1 with _ = (_, ?x) => set (w1 := x) in * end.
  (* the second call goes to hideTree *)
  assert (E2 : toggleTree h2 w1 =
    (Resolved tt,
     {| currentPosition := None;
        treeViewEnabled := false;
        calls := (calls w1 ++ [CallIsTreeViewEnabled]) ++
          [CallHidePanel target; CallSetTreeViewEnabled false] |})).
  { unfold toggleTree, isTreeViewEnabled, bind at 1, bind at 1, log.
    rewrite Hread2. simpl.
    rewrite (hideTree_shown h2 (logged [CallIsTreeViewEnabled] w1) target
               eq_refl (Hhide2 target)).
    now rewrite Hwrite2. }
  eexists. eexists. split; [exact E1|].
  split; [reflexivity|]. split; [discriminate|].
  split.
  { simpl. rewrite !count_showPanel_app. unfold showPanelCall.
    change (count_showPanel [CallIsTreeViewEnabled]) with 0%nat.
    change (count_showPanel [CallGetPlugConfig]) with 0%nat.
    change (count_showPanel assetReads) with 0%nat.
    unfold count_showPanel at 2. simpl. lia. }
  split.
  { simpl. rewrite !count_hidePanel_app. unfold showPanelCall.
    change (count_hidePanel [CallIsTreeViewEnabled]) with 0%nat.
    change (count_hidePanel [CallGetPlugConfig]) with 0%nat.
    change (count_hidePanel assetReads) with 0%nat.
    unfold count_hidePanel at 2. simpl. lia. }
  split; [exact E2|].
  split; [reflexivity|]. split; [reflexivity|].
  generalize (calls w1); intros evs. simpl.
  split.
  - rewrite !count_hidePanel_app.
    change (count_hidePanel [CallIsTreeViewEnabled]) with 0%nat.
    change (count_hidePanel [CallHidePanel target; CallSetTreeViewEnabled false])
      with 1%nat.
    lia.
  - rewrite !count_showPanel_app.
    change (count_showPanel [CallIsTreeViewEnabled]) with 0%nat.
    change (count_showPanel [CallHidePanel target; CallSetTreeViewEnabled false])
      with 0%nat.
    lia.
Qed.

(** *** [showTreeIfEnabled] *)

(** C7. [showTreeIfEnabled] never rejects: a rejection of the environment
    query, of the preference query or of [showTree] is caught and logged
    under the plug's display name.  On the server it returns at once: the
    environment query is its only call, nothing is shown and nothing changes,
    whatever the preference. *)
Theorem showTreeIfEnabled_never_rejects (h : Host) (w : World) :
  fst (showTreeIfEnabled h w) = Resolved tt /\
  (forall e,
     env h = Rejected e ->
     showTreeIfEnabled h w =
       (Resolved tt,
        logged [CallGetEnv;
                ConsoleError (PLUG_DISPLAY_NAME ++ ": showTreeIfEnabled failed") e]
          w)) /\
  (forall environment e w1,
     env h = Resolved environment ->
     environment <> "server" ->
     enabledReadFault h = None ->
     treeViewEnabled w = true ->
     showTree h (logged [CallGetEnv; CallIsTreeViewEnabled] w) = (Rejected e, w1) ->
     showTreeIfEnabled h w =
       (Resolved tt,
        logged [ConsoleError (PLUG_DISPLAY_NAME ++ ": showTreeIfEnabled failed") e]
          w1)) /\
  (env h = Resolved "server" ->
   showTreeIfEnabled h w = (Resolved tt, logged [CallGetEnv] w) /\
   count_showPanel (calls (snd (showTreeIfEnabled h w))) = count_showPanel (calls w)).
Proof.
  split; [|split; [|split]].
  - unfold showTreeIfEnabled, try_catch.
    match goal with
    | |- fst (match ?body with _ => _ end) = _ =>
        destruct body as [[[]|e] w']; reflexivity
    end.
  - intros e He.
    unfold showTreeIfEnabled, try_catch, system_getEnv, call, bind, log, settle.
    rewrite He. unfold console_error, log. now rewrite logged_logged.
  - intros environment e w1 He Hn Hread Hen Hshow.
    unfold showTreeIfEnabled, try_catch, system_getEnv, call, bind at 1,
      bind at 1, log, settle.
    rewrite He.
    apply String.eqb_neq in Hn. rewrite Hn.
    unfold isTreeViewEnabled, bind, log. rewrite Hread. simpl.
    rewrite Hen, logged_logged. simpl. rewrite Hshow. reflexivity.
  - intros He.
    assert (E : showTreeIfEnabled h w = (Resolved tt, logged [CallGetEnv] w)).
    { unfold showTreeIfEnabled, try_catch, system_getEnv, call, bind, log, settle.
      now rewrite He. }
    split; [exact E|].
    rewrite E. simpl. rewrite count_showPanel_app.
    change (count_showPanel [CallGetEnv]) with 0%nat. lia.
Qed.

(** *** [showTree] *)

(** C3. [showTree] with the tree already shown at [P]: when the resolved
    position is [P] again, [hidePanel] is not called; when it is another
    position, the panel at [P] is hidden and the preference turned off
    first, and only then are the assets fetched and the panel shown at the
    new position: a rejected [hidePanel] ends [showTree] before anything is
    shown. *)
Theorem showTree_reentrant (h : Host) (w : World) (config : TreeViewConfig)
  (P : Position) :
  plugConfig h = Resolved config ->
  currentPosition w = Some P ->
  let target := getAdaptivePosition (window h) config in
  (target = P ->
   exists new : list Event,
     calls (snd (showTree h w)) = (calls w ++ new)%list /\
     count_hidePanel new = 0%nat) /\
  (target <> P ->
   forall tree styles,
     hidePanelAnswer h P = Resolved tt ->
     enabledWriteFault h false = None ->
     assets_resolve h = true ->
     pageTreeAnswer h config = Resolved tree ->
     customStylesAnswer h = Resolved styles ->
     showPanelAnswer h target (size config) (shownHtml h styles)
       (shownScript h config tree) = Resolved tt ->
     enabledWriteFault h true = None ->
     showTree h w =
       (Resolved tt,
        {| currentPosition := Some target;
           treeViewEnabled := true;
           calls :=
             (calls w ++
              [CallGetPlugConfig; CallHidePanel P; CallSetTreeViewEnabled false]) ++
             assetReads ++
             [CallGetPageTree config; CallGetCustomStyles;
              showPanelCall h config target tree styles;
              CallSetTreeViewEnabled true] |})) /\
  (target <> P ->
   forall e,
     hidePanelAnswer h P = Rejected e ->
     showTree h w = (Rejected e, logged [CallGetPlugConfig; CallHidePanel P] w)).
Proof.
  intros Hc HP target. split; [|split].
  - intros Et.
    rewrite (showTree_not_stale _ _ _ Hc).
    2:{ apply stale_false_iff. right. now rewrite HP, <- Et. }
    fold target.
    destruct (fetch_and_show_no_hide h config target (logged [CallGetPlugConfig] w))
      as (new & Hnew & Hcount).
    exists ([CallGetPlugConfig] ++ new)%list. split.
    + rewrite Hnew. simpl. now rewrite <- app_assoc.
    + rewrite count_hidePanel_app, Hcount. reflexivity.
  - intros Nt tree styles Hhide Hoff Ha Ht Hs Hshow Hon.
    rewrite (showTree_reaches_fetch _ _ _ Hc).
    2:{ intros P' HP' _. rewrite HP in HP'. inversion HP'; subst P'. now split. }
    fold target.
    rewrite (hidden_first_stale target P w HP) by congruence.
    rewrite (fetch_and_show_run _ _ _ _ Ha), Ht, Hs, Hshow, Hon.
    reflexivity.
  - intros Nt e Hhide.
    rewrite (showTree_stale _ _ _ Hc).
    2:{ apply stale_true_iff. exists P. split; [exact HP|].
        intros E. apply Nt. symmetry. exact E. }
    unfold bind at 1.
    rewrite (hideTree_rejected h (logged [CallGetPlugConfig] w) P e HP Hhide).
    now rewrite logged_logged.
Qed.

(** What a rejecting [showTree] leaves in [currentPosition]: what was there,
    or nothing once the panel in the way has been hidden. *)
Lemma showTree_rejected_position (h : Host) (w : World) (e : Err) :
  fst (showTree h w) = Rejected e ->
  currentPosition (snd (showTree h w)) = currentPosition w \/
  currentPosition (snd (showTree h w)) = None.
Proof.
  destruct (plugConfig h) as [config|e0] eqn:Hc.
  2:{ rewrite (showTree_config_rejected _ _ _ Hc). now left. }
  destruct (stale (getAdaptivePosition (window h) config) w) eqn:Hs.
  - rewrite (showTree_stale _ _ _ Hc Hs).
    apply stale_true_iff in Hs as (P & HP & HN).
    unfold bind.
    destruct (hidePanelAnswer h P) as [[]|e1] eqn:Hhide.
    + rewrite (hideTree_shown h (logged [CallGetPlugConfig] w) P HP Hhide).
      destruct (enabledWriteFault h false) as [e1|]; [now right|].
      intros Hr. right.
      now rewrite (fetch_and_show_rejected_position _ _ _ _ _ Hr).
    + rewrite (hideTree_rejected h (logged [CallGetPlugConfig] w) P e1 HP Hhide).
      now left.
  - rewrite (showTree_not_stale _ _ _ Hc Hs).
    intros Hr. left.
    now rewrite (fetch_and_show_rejected_position _ _ _ _ _ Hr).
Qed.

(** C10. [showTree] assigns [currentPosition] last: whenever it rejects,
    [currentPosition] is what it was, or absent once the panel in the way has
    been hidden.  In particular, when [showPanel] has succeeded and
    [setTreeViewEnabled(true)] rejects, [showTree] rejects with that error
    and [currentPosition] keeps the value it had before the assignment, so
    that the panel just shown is not recorded. *)
Theorem showTree_enable_rejected (h : Host) (w : World)
  (config : TreeViewConfig) (tree : PageTreeResult) (styles : option string)
  (e : Err) :
  plugConfig h = Resolved config ->
  let target := getAdaptivePosition (window h) config in
  hide_succeeds h target w ->
  assets_resolve h = true ->
  pageTreeAnswer h config = Resolved tree ->
  customStylesAnswer h = Resolved styles ->
  showPanelAnswer h target (size config) (shownHtml h styles)
    (shownScript h config tree) = Resolved tt ->
  enabledWriteFault h true = Some e ->
  showTree h w =
    (Rejected e,
     logged (assetReads ++
       [CallGetPageTree config; CallGetCustomStyles;
        showPanelCall h config target tree styles;
        CallSetTreeViewEnabled true]) (hidden_first target w)) /\
  currentPosition (snd (showTree h w)) =
    (if stale target w then None else currentPosition w) /\
  (currentPosition w <> Some target ->
   currentPosition (snd (showTree h w)) <> Some target) /\
  (forall h' w' e',
     fst (showTree h' w') = Rejected e' ->
     currentPosition (snd (showTree h' w')) = currentPosition w' \/
     currentPosition (snd (showTree h' w')) = None).
Proof.
  intros Hc target Hhide Ha Ht Hs Hshow Hon.
  assert (E : showTree h w =
    (Rejected e,
     logged (assetReads ++
       [CallGetPageTree config; CallGetCustomStyles;
        showPanelCall h config target tree styles;
        CallSetTreeViewEnabled true]) (hidden_first target w))).
  { rewrite (showTree_reaches_fetch _ _ _ Hc Hhide). fold target.
    now rewrite (fetch_and_show_run _ _ _ _ Ha), Ht, Hs, Hshow, Hon. }
  assert (Epos : currentPosition (snd (showTree h w)) =
                 (if stale target w then None else currentPosition w)).
  { rewrite E. simpl.
    destruct (stale target w) eqn:Hst.
    - apply stale_true_iff in Hst as (P & HP & HN).
      now rewrite (hidden_first_stale target P w HP HN).
    - now rewrite (hidden_first_not_stale target w Hst). }
  split; [exact E|]. split; [exact Epos|]. split.
  - intros Hne. rewrite Epos.
    destruct (stale target w); [discriminate | exact Hne].
  - intros h' w' e'. apply showTree_rejected_position.
Qed.

(** C1, as amended.  When [getPageTree] rejects, [showTree] rejects with the
    same error.  [currentPosition] and the preference are then what they were
    before the call if no panel was shown at another position than the
    resolved one; if one was, it has been hidden by then: [currentPosition]
    is absent and the preference is off. *)
Theorem showTree_pageTree_rejected (h : Host) (w : World)
  (config : TreeViewConfig) (e : Err) :
  plugConfig h = Resolved config ->
  let target := getAdaptivePosition (window h) config in
  hide_succeeds h target w ->
  assets_resolve h = true ->
  pageTreeAnswer h config = Rejected e ->
  showTree h w =
    (Rejected e,
     logged (assetReads ++ [CallGetPageTree config]) (hidden_first target w)) /\
  (currentPosition w = None \/ currentPosition w = Some target ->
   currentPosition (snd (showTree h w)) = currentPosition w /\
   treeViewEnabled (snd (showTree h w)) = treeViewEnabled w) /\
  (forall P, currentPosition w = Some P -> P <> target ->
   currentPosition (snd (showTree h w)) = None /\
   treeViewEnabled (snd (showTree h w)) = false).
Proof.
  intros Hc target Hhide Ha Ht.
  assert (E : showTree h w =
    (Rejected e,
     logged (assetReads ++ [CallGetPageTree config]) (hidden_first target w))).
  { rewrite (showTree_reaches_fetch _ _ _ Hc Hhide). fold target.
    now rewrite (fetch_and_show_run _ _ _ _ Ha), Ht. }
  split; [exact E|]. rewrite E. simpl. split.
  - intros Hst. apply stale_false_iff in Hst.
    rewrite (hidden_first_not_stale target w Hst). now split.
  - intros P HP HN. rewrite (hidden_first_stale target P w HP HN). now split.
Qed.

(** C2, as amended.  In [showTree] the nine asset reads are issued together
    and joined; [getPageTree] is called only once they have all resolved, and
    [getCustomStyles] only once [getPageTree] has resolved; [showPanel] is
    called after all three. *)
Theorem showTree_fetch_order (h : Host) (w : World) (config : TreeViewConfig) :
  plugConfig h = Resolved config ->
  let target := getAdaptivePosition (window h) config in
  hide_succeeds h target w ->
  let w1 := hidden_first target w in
  (assets_resolve h = false ->
   exists path e,
     In path assetPaths /\
     assetAnswer h PLUG_NAME path = Rejected e /\
     showTree h w = (Rejected e, logged assetReads w1)) /\
  (assets_resolve h = true ->
   forall e,
     pageTreeAnswer h config = Rejected e ->
     showTree h w = (Rejected e, logged (assetReads ++ [CallGetPageTree config]) w1)) /\
  (assets_resolve h = true ->
   forall tree e,
     pageTreeAnswer h config = Resolved tree ->
     customStylesAnswer h = Rejected e ->
     showTree h w =
       (Rejected e,
        logged (assetReads ++ [CallGetPageTree config; CallGetCustomStyles]) w1)) /\
  (assets_resolve h = true ->
   forall tree styles,
     pageTreeAnswer h config = Resolved tree ->
     customStylesAnswer h = Resolved styles ->
     exists rest : list Event,
       calls (snd (showTree h w)) =
         (calls w1 ++ assetReads ++
          [CallGetPageTree config; CallGetCustomStyles;
           showPanelCall h config target tree styles] ++ rest)%list).
Proof.
  intros Hc target Hhide w1.
  rewrite (showTree_reaches_fetch _ _ _ Hc Hhide). fold target. fold w1.
  split; [|split; [|split]].
  - intros Ha. unfold fetch_and_show, bind at 1, Promise_all.
    rewrite <- asset_batch_resolves in Ha.
    destruct (first_rejection_some _ Ha) as (t & e & E). rewrite E.
    destruct (first_rejection_member _ _ _ E) as (p & Hin & Hrej & _).
    apply in_map_iff in Hin as (path & <- & Hpath).
    exists path, e. rewrite asset_batch_issued. now repeat split.
  - intros Ha e Ht.
    now rewrite (fetch_and_show_run _ _ _ _ Ha), Ht.
  - intros Ha tree e Ht Hs.
    now rewrite (fetch_and_show_run _ _ _ _ Ha), Ht, Hs.
  - intros Ha tree styles Ht Hs.
    rewrite (fetch_and_show_run _ _ _ _ Ha), Ht, Hs.
    destruct (showPanelAnswer h target (size config) (shownHtml h styles)
                (shownScript h config tree)) as [[]|e].
    + destruct (enabledWriteFault h true) as [e|]; simpl.
      * exists [CallSetTreeViewEnabled true]. reflexivity.
      * exists [CallSetTreeViewEnabled true]. reflexivity.
    + exists []. reflexivity.
Qed.

(** *** Every path through [showTree] *)

Ltac count_panels :=
  unfold showPanelCall, count_showPanel, count_hidePanel, assetReads;
  simpl; try reflexivity; try lia.

Lemma hidden_first_log (target : Position) (w : World) :
  exists pre : list Event,
    calls (hidden_first target w) = (calls w ++ pre)%list /\
    count_showPanel pre = 0%nat /\
    (count_hidePanel pre <= 1)%nat.
Proof.
  unfold hidden_first. destruct (currentPosition w) as [P|].
  - destruct (Position_eqb target P); simpl; eexists;
      (split; [reflexivity|]); split; count_panels.
  - simpl; eexists; (split; [reflexivity|]); split; count_panels.
Qed.

Lemma hidden_first_keeps_invariant (target : Position) (w : World) :
  shown_implies_enabled w -> shown_implies_enabled (hidden_first target w).
Proof.
  unfold shown_implies_enabled, hidden_first. intros I.
  destruct (currentPosition w) as [P|] eqn:HP.
  - destruct (Position_eqb target P); simpl.
    + rewrite HP. exact I.
    + intros N. now contradiction N.
  - simpl. rewrite HP. exact I.
Qed.

(** Lines 89-169 either reject, having shown at most one panel and left the
    state alone, or resolve, every collaborator having resolved. *)
Lemma fetch_and_show_cases (h : Host) (config : TreeViewConfig)
  (target : Position) (w : World) :
  (exists e (new : list Event),
     fetch_and_show h config target w = (Rejected e, logged new w) /\
     count_hidePanel new = 0%nat /\
     (count_showPanel new <= 1)%nat) \/
  (exists tree styles,
     assets_resolve h = true /\
     pageTreeAnswer h config = Resolved tree /\
     customStylesAnswer h = Resolved styles /\
     showPanelAnswer h target (size config) (shownHtml h styles)
       (shownScript h config tree) = Resolved tt /\
     enabledWriteFault h true = None /\
     fetch_and_show h config target w =
       (Resolved tt,
        {| currentPosition := Some target;
           treeViewEnabled := true;
           calls := calls w ++ assetReads ++
             [CallGetPageTree config; CallGetCustomStyles;
              showPanelCall h config target tree styles;
              CallSetTreeViewEnabled true] |})).
Proof.
  destruct (assets_resolve h) eqn:Ha.
  - rewrite (fetch_and_show_run _ _ _ _ Ha).
    destruct (pageTreeAnswer h config) as [tree|e].
    2:{ left. eexists. eexists. split; [reflexivity|]. split; count_panels. }
    destruct (customStylesAnswer h) as [styles|e].
    2:{ left. eexists. eexists. split; [reflexivity|]. split; count_panels. }
    destruct (showPanelAnswer h target (size config) (shownHtml h styles)
                (shownScript h config tree)) as [[]|e] eqn:Hshow.
    2:{ left. eexists. eexists. split; [reflexivity|]. split; count_panels. }
    destruct (enabledWriteFault h true) as [e|] eqn:Hon.
    + left. eexists. eexists. split; [reflexivity|]. split; count_panels.
    + right. exists tree, styles. now repeat split.
  - left.
    destruct (fetch_and_show_assets_rejected h config target w Ha) as (e & E).
    exists e, assetReads. split; [exact E|]. split; count_panels.
Qed.

(** [showTree] stops at the configuration, at the panel in the way, or goes
    on to lines 89-169 from [hidden_first]. *)
Lemma showTree_cases (h : Host) (w : World) :
  (exists e,
     plugConfig h = Rejected e /\
     showTree h w = (Rejected e, logged [CallGetPlugConfig] w)) \/
  (exists config P e,
     plugConfig h = Resolved config /\
     currentPosition w = Some P /\
     P <> getAdaptivePosition (window h) config /\
     hidePanelAnswer h P = Rejected e /\
     showTree h w = (Rejected e, logged [CallGetPlugConfig; CallHidePanel P] w)) \/
  (exists config P e,
     plugConfig h = Resolved config /\
     currentPosition w = Some P /\
     P <> getAdaptivePosition (window h) config /\
     hidePanelAnswer h P = Resolved tt /\
     enabledWriteFault h false = Some e /\
     showTree h w =
       (Rejected e,
        {| currentPosition := None;
           treeViewEnabled := treeViewEnabled w;
           calls := calls w ++
             [CallGetPlugConfig; CallHidePanel P; CallSetTreeViewEnabled false] |})) \/
  (exists config,
     plugConfig h = Resolved config /\
     hide_succeeds h (getAdaptivePosition (window h) config) w /\
     showTree h w =
       fetch_and_show h config (getAdaptivePosition (window h) config)
         (hidden_first (getAdaptivePosition (window h) config) w)).
Proof.
  destruct (plugConfig h) as [config|e] eqn:Hc.
  2:{ left. exists e. split; [reflexivity|]. now apply showTree_config_rejected. }
  right.
  destruct (stale (getAdaptivePosition (window h) config) w) eqn:Hs.
  - pose proof Hs as Hs'. apply stale_true_iff in Hs' as (P & HP & HN).
    destruct (hidePanelAnswer h P) as [[]|e] eqn:Hhide.
    + destruct (enabledWriteFault h false) as [e|] eqn:Hoff.
      * right. left. exists config, P, e.
        repeat split; try assumption.
        rewrite (showTree_stale _ _ _ Hc Hs). unfold bind at 1.
        rewrite (hideTree_shown h (logged [CallGetPlugConfig] w) P HP Hhide).
        rewrite Hoff. simpl. now rewrite <- app_assoc.
      * right. right. exists config.
        assert (Hh : hide_succeeds h (getAdaptivePosition (window h) config) w).
        { intros P' HP' _. rewrite HP in HP'. inversion HP'; subst P'. now split. }
        split; [reflexivity|]. split; [exact Hh|].
        now apply showTree_reaches_fetch.
    + left. exists config, P, e. repeat split; try assumption.
      rewrite (showTree_stale _ _ _ Hc Hs). unfold bind at 1.
      rewrite (hideTree_rejected h (logged [CallGetPlugConfig] w) P e HP Hhide).
      now rewrite logged_logged.
  - right. right. exists config.
    assert (Hh : hide_succeeds h (getAdaptivePosition (window h) config) w).
    { intros P HP HN. apply stale_false_iff in Hs as [Hs|Hs]; rewrite Hs in HP.
      - discriminate HP.
      - inversion HP; subst P. now contradiction HN. }
    split; [reflexivity|]. split; [exact Hh|].
    now apply showTree_reaches_fetch.
Qed.

(** With collaborators that never reject, [showTree] resolves: the log and
    the state it leaves. *)
Lemma showTree_cooperative (h : Host) :
  never_rejects h ->
  exists config tree styles,
    plugConfig h = Resolved config /\
    pageTreeAnswer h config = Resolved tree /\
    customStylesAnswer h = Resolved styles /\
    forall w,
      showTree h w =
        (Resolved tt,
         {| currentPosition := Some (getAdaptivePosition (window h) config);
            treeViewEnabled := true;
            calls :=
              calls (hidden_first (getAdaptivePosition (window h) config) w) ++
              assetReads ++
              [CallGetPageTree config; CallGetCustomStyles;
               showPanelCall h config (getAdaptivePosition (window h) config)
                 tree styles;
               CallSetTreeViewEnabled true] |}).
Proof.
  intros N. pose proof (never_rejects_hide h) as Hhide.
  destruct N as ((config & Hc) & He & Hread & Hwrite & Hh & Hshow & Ha
                 & Htree & (styles & Hs)).
  destruct (Htree config) as (tree & Ht).
  exists config, tree, styles. repeat split; try assumption.
  intros w.
  rewrite (showTree_reaches_fetch _ _ _ Hc).
  2:{ intros P _ _. split; [apply Hh | apply Hwrite]. }
  now rewrite (fetch_and_show_run _ _ _ _ Ha), Ht, Hs, Hshow, Hwrite.
Qed.

(** *** Further properties of the controller *)

Lemma logged_keeps_invariant (evs : list Event) (w : World) :
  shown_implies_enabled w -> shown_implies_enabled (logged evs w).
Proof. intros I. exact I. Qed.

Lemma hideTree_keeps_invariant (h : Host) (w : World) :
  shown_implies_enabled w -> shown_implies_enabled (snd (hideTree h w)).
Proof.
  intros I. destruct (currentPosition w) as [P|] eqn:HP.
  - destruct (hidePanelAnswer h P) as [[]|e] eqn:Hhide.
    + rewrite (hideTree_shown h w P HP Hhide). intros N. now contradiction N.
    + rewrite (hideTree_rejected h w P e HP Hhide). exact I.
  - now rewrite (hideTree_not_shown h w HP).
Qed.

Lemma showTree_keeps_invariant (h : Host) (w : World) :
  shown_implies_enabled w -> shown_implies_enabled (snd (showTree h w)).
Proof.
  intros I.
  destruct (showTree_cases h w)
    as [(e & _ & E)|[(config & P & e & _ & _ & _ & _ & E)
       |[(config & P & e & _ & _ & _ & _ & _ & E)|(config & _ & _ & E)]]];
    rewrite E; clear E.
  - exact I.
  - exact I.
  - intros N. now contradiction N.
  - pose proof (hidden_first_keeps_invariant
                  (getAdaptivePosition (window h) config) w I) as I1.
    destruct (fetch_and_show_cases h config
                (getAdaptivePosition (window h) config)
                (hidden_first (getAdaptivePosition (window h) config) w))
      as [(e & new & E & _)|(tree & styles & _ & _ & _ & _ & _ & E)];
      rewrite E.
    + exact I1.
    + intros _. reflexivity.
Qed.

(** X1. Whatever the collaborators answer, every entry point keeps this
    invariant: when [currentPosition] records a shown panel, the persisted
    preference is on. *)
Theorem shown_implies_enabled_preserved (h : Host) (w : World) :
  shown_implies_enabled w ->
  shown_implies_enabled (snd (hideTree h w)) /\
  shown_implies_enabled (snd (showTree h w)) /\
  shown_implies_enabled (snd (toggleTree h w)) /\
  shown_implies_enabled (snd (showTreeIfEnabled h w)).
Proof.
  intros I.
  split; [now apply hideTree_keeps_invariant|].
  split; [now apply showTree_keeps_invariant|].
  split.
  - unfold toggleTree, isTreeViewEnabled, bind, log, reject.
    destruct (enabledReadFault h) as [e|]; [exact I|]. simpl.
    destruct (treeViewEnabled w) eqn:He; simpl.
    + apply hideTree_keeps_invariant. intros _. exact He.
    + apply showTree_keeps_invariant. intros N. now apply I in N.
  - unfold showTreeIfEnabled, try_catch, system_getEnv, call, bind at 1,
      bind at 1, log, settle.
    destruct (env h) as [environment|e]; [|exact I].
    destruct (environment =? "server")%string; [exact I|].
    unfold isTreeViewEnabled, bind, log, reject.
    destruct (enabledReadFault h) as [e|]; [exact I|]. simpl.
    destruct (treeViewEnabled w) eqn:He; simpl.
    + pose proof (showTree_keeps_invariant h
                    (logged [CallIsTreeViewEnabled] (logged [CallGetEnv] w))) as K.
      destruct (showTree h (logged [CallIsTreeViewEnabled] (logged [CallGetEnv] w)))
        as [[[]|e] w1]; simpl in *; apply K; intros _; exact He.
    + intros N. now apply I in N.
Qed.

(** X2. [showTree] resolves only when every collaborator it asks has
    resolved; it then records the resolved position, the one handed to
    [showPanel], in [currentPosition], the preference is on, and its last two
    calls are [showPanel] and [setTreeViewEnabled(true)]. *)
Theorem showTree_resolved_inversion (h : Host) (w : World) :
  fst (showTree h w) = Resolved tt ->
  exists config tree styles,
    plugConfig h = Resolved config /\
    assets_resolve h = true /\
    pageTreeAnswer h config = Resolved tree /\
    customStylesAnswer h = Resolved styles /\
    showPanelAnswer h (getAdaptivePosition (window h) config) (size config)
      (shownHtml h styles) (shownScript h config tree) = Resolved tt /\
    enabledWriteFault h true = None /\
    hide_succeeds h (getAdaptivePosition (window h) config) w /\
    showTree h w =
      (Resolved tt,
       {| currentPosition := Some (getAdaptivePosition (window h) config);
          treeViewEnabled := true;
          calls :=
            calls (hidden_first (getAdaptivePosition (window h) config) w) ++
            assetReads ++
            [CallGetPageTree config; CallGetCustomStyles;
             showPanelCall h config (getAdaptivePosition (window h) config)
               tree styles;
             CallSetTreeViewEnabled true] |}).
Proof.
  intros R.
  destruct (showTree_cases h w)
    as [(e & _ & E)|[(config & P & e & _ & _ & _ & _ & E)
       |[(config & P & e & _ & _ & _ & _ & _ & E)|(config & Hc & Hh & E)]]];
    try (rewrite E in R; discriminate R).
  destruct (fetch_and_show_cases h config
              (getAdaptivePosition (window h) config)
              (hidden_first (getAdaptivePosition (window h) config) w))
    as [(e & new & E' & _)|(tree & styles & Ha & Ht & Hs & Hshow & Hon & E')].
  - rewrite E, E' in R. discriminate R.
  - exists config, tree, styles. rewrite E, E'.
    repeat (split; [assumption|]). reflexivity.
Qed.

(** X3. Whatever the collaborators answer, one [showTree] makes at most one
    [hidePanel] call and at most one [showPanel] call, the [hidePanel] call
    before the [showPanel] call; one [hideTree] makes at most one
    [hidePanel] call and no [showPanel] call. *)
Theorem panel_calls_bounded (h : Host) (w : World) :
  (exists before after : list Event,
     calls (snd (showTree h w)) = (calls w ++ before ++ after)%list /\
     count_showPanel before = 0%nat /\
     (count_hidePanel before <= 1)%nat /\
     count_hidePanel after = 0%nat /\
     (count_showPanel after <= 1)%nat) /\
  (exists new : list Event,
     calls (snd (hideTree h w)) = (calls w ++ new)%list /\
     count_showPanel new = 0%nat /\
     (count_hidePanel new <= 1)%nat).
Proof.
  split.
  - destruct (showTree_cases h w)
      as [(e & _ & E)|[(config & P & e & _ & _ & _ & _ & E)
         |[(config & P & e & _ & _ & _ & _ & _ & E)|(config & _ & _ & E)]]];
      rewrite E; clear E.
    + exists [CallGetPlugConfig], []. simpl. repeat split; count_panels.
    + exists [CallGetPlugConfig; CallHidePanel P], []. simpl.
      repeat split; count_panels.
    + exists [CallGetPlugConfig; CallHidePanel P; CallSetTreeViewEnabled false], [].
      simpl. repeat split; count_panels.
    + destruct (hidden_first_log (getAdaptivePosition (window h) config) w)
        as (pre & Hpre & Hs0 & Hh1).
      destruct (fetch_and_show_cases h config
                  (getAdaptivePosition (window h) config)
                  (hidden_first (getAdaptivePosition (window h) config) w))
        as [(e & new & E & Hh0 & Hs1)|(tree & styles & _ & _ & _ & _ & _ & E)];
        rewrite E; simpl; rewrite Hpre.
      * exists pre, new. rewrite <- app_assoc. now repeat split.
      * eexists pre, _. rewrite <- app_assoc.
        split; [reflexivity|]. repeat split; try assumption; count_panels.
  - destruct (currentPosition w) as [P|] eqn:HP.
    + destruct (hidePanelAnswer h P) as [[]|e] eqn:Hhide.
      * rewrite (hideTree_shown h w P HP Hhide). simpl.
        eexists. split; [reflexivity|]. split; count_panels.
      * rewrite (hideTree_rejected h w P e HP Hhide). simpl.
        eexists. split; [reflexivity|]. split; count_panels.
    + rewrite (hideTree_not_shown h w HP). exists [].
      rewrite app_nil_r. repeat split; count_panels.
Qed.

Lemma showTree_cooperative_at (h : Host) (config : TreeViewConfig) :
  never_rejects h ->
  plugConfig h = Resolved config ->
  exists tree styles,
    forall w,
      showTree h w =
        (Resolved tt,
         {| currentPosition := Some (getAdaptivePosition (window h) config);
            treeViewEnabled := true;
            calls :=
              calls (hidden_first (getAdaptivePosition (window h) config) w) ++
              assetReads ++
              [CallGetPageTree config; CallGetCustomStyles;
               showPanelCall h config (getAdaptivePosition (window h) config)
                 tree styles;
               CallSetTreeViewEnabled true] |}).
Proof.
  intros N Hc.
  destruct (showTree_cooperative h N) as (config' & tree & styles & Hc' & _ & _ & E).
  rewrite Hc in Hc'. inversion Hc'; subst config'.
  now exists tree, styles.
Qed.

(** X4. When [showPanel] rejects, [showTree] rejects with the same error,
    [showPanel] being its last call: [setTreeViewEnabled(true)] is not
    called, and if no panel had to be hidden first, [currentPosition] and the
    preference are what they were. *)
Theorem showTree_showPanel_rejected (h : Host) (w : World)
  (config : TreeViewConfig) (tree : PageTreeResult) (styles : option string)
  (e : Err) :
  plugConfig h = Resolved config ->
  hide_succeeds h (getAdaptivePosition (window h) config) w ->
  assets_resolve h = true ->
  pageTreeAnswer h config = Resolved tree ->
  customStylesAnswer h = Resolved styles ->
  showPanelAnswer h (getAdaptivePosition (window h) config) (size config)
    (shownHtml h styles) (shownScript h config tree) = Rejected e ->
  showTree h w =
    (Rejected e,
     logged (assetReads ++
       [CallGetPageTree config; CallGetCustomStyles;
        showPanelCall h config (getAdaptivePosition (window h) config) tree styles])
       (hidden_first (getAdaptivePosition (window h) config) w)) /\
  (currentPosition w = None \/
   currentPosition w = Some (getAdaptivePosition (window h) config) ->
   currentPosition (snd (showTree h w)) = currentPosition w /\
   treeViewEnabled (snd (showTree h w)) = treeViewEnabled w).
Proof.
  intros Hc Hhide Ha Ht Hs Hshow.
  rewrite (showTree_reaches_fetch _ _ _ Hc Hhide).
  rewrite (fetch_and_show_run _ _ _ _ Ha), Ht, Hs, Hshow.
  split; [reflexivity|].
  intros Hst. apply stale_false_iff in Hst.
  rewrite (hidden_first_not_stale _ w Hst). now split.
Qed.

(** X5. When [hidePanel] rejects, [hideTree] rejects with the same error and
    changes nothing: the panel is still recorded as shown and the preference
    is not written.  A later [hideTree] whose [hidePanel] resolves then hides
    the panel and turns the preference off. *)
Theorem hideTree_hidePanel_rejected (h1 h2 : Host) (w : World) (P : Position)
  (e : Err) :
  currentPosition w = Some P ->
  hidePanelAnswer h1 P = Rejected e ->
  hideTree h1 w = (Rejected e, logged [CallHidePanel P] w) /\
  (hidePanelAnswer h2 P = Resolved tt ->
   enabledWriteFault h2 false = None ->
   hideTree h2 (snd (hideTree h1 w)) =
     (Resolved tt,
      {| currentPosition := None;
         treeViewEnabled := false;
         calls := calls w ++
           [CallHidePanel P; CallHidePanel P; CallSetTreeViewEnabled false] |})).
Proof.
  intros HP Hrej.
  rewrite (hideTree_rejected h1 w P e HP Hrej).
  split; [reflexivity|].
  intros Hok Hoff. simpl.
  rewrite (hideTree_shown h2 (logged [CallHidePanel P] w) P HP Hok), Hoff.
  simpl. now rewrite <- app_assoc.
Qed.

(** X6. When [hidePanel] resolves and [setTreeViewEnabled(false)] rejects,
    [hideTree] rejects having already cleared [currentPosition]: the
    preference stays as it was.  If it was on, the next [toggleTree] goes to
    [hideTree] again and calls neither [showPanel] nor [hidePanel]. *)
Theorem hideTree_write_rejected (h1 h2 : Host) (w : World) (P : Position)
  (e : Err) :
  currentPosition w = Some P ->
  hidePanelAnswer h1 P = Resolved tt ->
  enabledWriteFault h1 false = Some e ->
  hideTree h1 w =
    (Rejected e,
     {| currentPosition := None;
        treeViewEnabled := treeViewEnabled w;
        calls := calls w ++ [CallHidePanel P; CallSetTreeViewEnabled false] |}) /\
  (treeViewEnabled w = true ->
   enabledReadFault h2 = None ->
   toggleTree h2 (snd (hideTree h1 w)) =
     (Resolved tt, logged [CallIsTreeViewEnabled] (snd (hideTree h1 w)))).
Proof.
  intros HP Hok Hoff.
  rewrite (hideTree_shown h1 w P HP Hok), Hoff.
  split; [reflexivity|].
  intros He Hread. simpl.
  unfold toggleTree, isTreeViewEnabled, bind, log. rewrite Hread. simpl.
  rewrite He. simpl. now rewrite hideTree_not_shown.
Qed.

(** X7. After a [showTree] in which [showPanel] resolved and
    [setTreeViewEnabled(true)] rejected, starting with nothing shown, the
    panel just shown is out of reach of [hideTree]: a following [hideTree]
    calls nothing and changes nothing. *)
Theorem showTree_enable_rejected_then_hide (h1 h2 : Host) (w : World)
  (config : TreeViewConfig) (tree : PageTreeResult) (styles : option string)
  (e : Err) :
  currentPosition w = None ->
  plugConfig h1 = Resolved config ->
  assets_resolve h1 = true ->
  pageTreeAnswer h1 config = Resolved tree ->
  customStylesAnswer h1 = Resolved styles ->
  showPanelAnswer h1 (getAdaptivePosition (window h1) config) (size config)
    (shownHtml h1 styles) (shownScript h1 config tree) = Resolved tt ->
  enabledWriteFault h1 true = Some e ->
  (count_showPanel (calls (snd (showTree h1 w))) =
     count_showPanel (calls w) + 1)%nat /\
  hideTree h2 (snd (showTree h1 w)) = (Resolved tt, snd (showTree h1 w)).
Proof.
  intros HP Hc Ha Ht Hs Hshow Hon.
  rewrite (showTree_reaches_fetch _ _ _ Hc).
  2:{ intros P HP'. rewrite HP in HP'. discriminate HP'. }
  rewrite hidden_first_not_stale.
  2:{ apply stale_false_iff. now left. }
  rewrite (fetch_and_show_run _ _ _ _ Ha), Ht, Hs, Hshow, Hon. simpl.
  split.
  - rewrite !count_showPanel_app.
    change (count_showPanel [CallGetPlugConfig]) with 0%nat.
    change (count_showPanel assetReads) with 0%nat.
    unfold showPanelCall, count_showPanel at 2. simpl. lia.
  - apply hideTree_not_shown. simpl. exact HP.
Qed.

(** X8. Off the server, [showTreeIfEnabled] with the preference off asks
    for the environment and the preference and does nothing else; when the
    read of the preference rejects, the error is logged and [showTree] is not
    run. *)
Theorem showTreeIfEnabled_disabled (h : Host) (w : World)
  (environment : string) :
  env h = Resolved environment ->
  environment <> "server" ->
  (enabledReadFault h = None ->
   treeViewEnabled w = false ->
   showTreeIfEnabled h w =
     (Resolved tt, logged [CallGetEnv; CallIsTreeViewEnabled] w)) /\
  (forall e,
     enabledReadFault h = Some e ->
     showTreeIfEnabled h w =
       (Resolved tt,
        logged [CallGetEnv; CallIsTreeViewEnabled;
                ConsoleError (PLUG_DISPLAY_NAME ++ ": showTreeIfEnabled failed") e]
          w)).
Proof.
  intros He Hn. apply String.eqb_neq in Hn.
  split.
  - intros Hread Hoff.
    unfold showTreeIfEnabled, try_catch, system_getEnv, call, bind at 1,
      bind at 1, log, settle.
    rewrite He, Hn.
    unfold isTreeViewEnabled, bind, log. rewrite Hread. simpl.
    rewrite Hoff. simpl. now rewrite logged_logged.
  - intros e Hread.
    unfold showTreeIfEnabled, try_catch, system_getEnv, call, bind at 1,
      bind at 1, log, settle.
    rewrite He, Hn.
    unfold isTreeViewEnabled, bind, log, reject. rewrite Hread. simpl.
    unfold console_error, log. now rewrite !logged_logged.
Qed.

(** X9. The preference on with nothing shown, as at process start after a
    restart: off the server, with collaborators that answer,
    [showTreeIfEnabled] shows the panel and records its position, after
    which [toggleTree] hides that very panel and turns the preference off. *)
Theorem showTreeIfEnabled_reconciles (h1 h2 : Host) (w : World)
  (environment : string) :
  never_rejects h1 ->
  env h1 = Resolved environment ->
  environment <> "server" ->
  never_rejects h2 ->
  treeViewEnabled w = true ->
  currentPosition w = None ->
  exists w1 w2 target,
    showTreeIfEnabled h1 w = (Resolved tt, w1) /\
    currentPosition w1 = Some target /\
    treeViewEnabled w1 = true /\
    (count_showPanel (calls w1) = count_showPanel (calls w) + 1)%nat /\
    toggleTree h2 w1 = (Resolved tt, w2) /\
    currentPosition w2 = None /\
    treeViewEnabled w2 = false /\
    calls w2 =
      (calls w1 ++
       [CallIsTreeViewEnabled; CallHidePanel target; CallSetTreeViewEnabled false])%list.
Proof.
  intros N1 He Hn N2 Hon HP.
  destruct (showTree_cooperative h1 N1)
    as (config & tree & styles & Hc & _ & _ & E).
  destruct N1 as (_ & _ & Hread1 & _).
  destruct N2 as (_ & _ & Hread2 & Hwrite2 & Hhide2 & _).
  apply String.eqb_neq in Hn.
  set (target := getAdaptivePosition (window h1) config) in *.
  assert (E1 : showTreeIfEnabled h1 w =
    (Resolved tt,
     {| currentPosition := Some target;
        treeViewEnabled := true;
        calls := (calls w ++ [CallGetEnv; CallIsTreeViewEnabled; CallGetPlugConfig]) ++
          assetReads ++
          [CallGetPageTree config; CallGetCustomStyles;
           showPanelCall h1 config target tree styles;
           CallSetTreeViewEnabled true] |})).
  { unfold showTreeIfEnabled, try_catch, system_getEnv, call, bind at 1,
      bind at 1, log, settle.
    rewrite He, Hn.
    unfold isTreeViewEnabled, bind, log. rewrite Hread1. simpl.
    rewrite Hon. simpl. rewrite E.
    rewrite hidden_first_not_stale.
    2:{ apply stale_false_iff. now left. }
    simpl. now rewrite <- !app_assoc. }
  match type of E1 with _ = (_, ?x) => set (w1 := x) in * end.
  assert (E2 : toggleTree h2 w1 =
    (Resolved tt,
     {| currentPosition := None;
        treeViewEnabled := false;
        calls := calls w1 ++
          [CallIsTreeViewEnabled; CallHidePanel target;
           CallSetTreeViewEnabled false] |})).
  { unfold toggleTree, isTreeViewEnabled, bind at 1, bind at 1, log.
    rewrite Hread2. simpl.
    rewrite (hideTree_shown h2 (logged [CallIsTreeViewEnabled] w1) target
               eq_refl (Hhide2 target)).
    rewrite Hwrite2. simpl. now rewrite <- app_assoc. }
  eexists. eexists. exists target.
  split; [exact E1|]. split; [reflexivity|]. split; [reflexivity|].
  split.
  { simpl. rewrite !count_showPanel_app.
    change (count_showPanel [CallGetEnv; CallIsTreeViewEnabled; CallGetPlugConfig])
      with 0%nat.
    change (count_showPanel assetReads) with 0%nat.
    unfold showPanelCall, count_showPanel at 2. simpl. lia. }
  split; [exact E2|]. now repeat split.
Qed.

(** X10. [showTree] with the panel already shown at the resolved position
    and collaborators that answer renders it again in place: no [hidePanel]
    call, one [showPanel] call at that position, [currentPosition] as it was
    and the preference on. *)
Theorem showTree_rerender (h : Host) (w : World) (config : TreeViewConfig) :
  never_rejects h ->
  plugConfig h = Resolved config ->
  currentPosition w = Some (getAdaptivePosition (window h) config) ->
  exists tree styles,
    showTree h w =
      (Resolved tt,
       {| currentPosition := currentPosition w;
          treeViewEnabled := true;
          calls := (calls w ++ [CallGetPlugConfig]) ++ assetReads ++
            [CallGetPageTree config; CallGetCustomStyles;
             showPanelCall h config (getAdaptivePosition (window h) config)
               tree styles;
             CallSetTreeViewEnabled true] |}) /\
    count_hidePanel (calls (snd (showTree h w))) = count_hidePanel (calls w) /\
    (count_showPanel (calls (snd (showTree h w))) =
       count_showPanel (calls w) + 1)%nat.
Proof.
  intros N Hc HP.
  destruct (showTree_cooperative_at h config N Hc) as (tree & styles & E).
  exists tree, styles. rewrite E.
  rewrite hidden_first_not_stale.
  2:{ apply stale_false_iff. now right. }
  rewrite HP. split; [reflexivity|]. simpl. split.
  - rewrite !count_hidePanel_app.
    change (count_hidePanel [CallGetPlugConfig]) with 0%nat.
    change (count_hidePanel assetReads) with 0%nat.
    unfold showPanelCall, count_hidePanel at 2. simpl. lia.
  - rewrite !count_showPanel_app.
    change (count_showPanel [CallGetPlugConfig]) with 0%nat.
    change (count_showPanel assetReads) with 0%nat.
    unfold showPanelCall, count_showPanel at 2. simpl. lia.
Qed.

(** X11. With [autoMobileMode] on, a configured position other than
    ["modal"] and collaborators that answer, [showTree] moves the panel with
    the viewport: shown at the configured position on a viewport no wider
    than the threshold, it is hidden there and shown as a modal; shown as a
    modal on a wider viewport, it is hidden and shown at the configured
    position. *)
Theorem showTree_follows_viewport (h : Host) (w : World)
  (config : TreeViewConfig) (win : Window) :
  never_rejects h ->
  plugConfig h = Resolved config ->
  window h = Some win ->
  autoMobileMode config = true ->
  position config <> modal ->
  exists tree styles,
    (innerWidth win <= mobileThreshold config ->
     currentPosition w = Some (position config) ->
     showTree h w =
       (Resolved tt,
        {| currentPosition := Some modal;
           treeViewEnabled := true;
           calls :=
             (calls w ++
              [CallGetPlugConfig; CallHidePanel (position config);
               CallSetTreeViewEnabled false]) ++
             assetReads ++
             [CallGetPageTree config; CallGetCustomStyles;
              showPanelCall h config modal tree styles;
              CallSetTreeViewEnabled true] |})) /\
    (mobileThreshold config < innerWidth win ->
     currentPosition w = Some modal ->
     showTree h w =
       (Resolved tt,
        {| currentPosition := Some (position config);
           treeViewEnabled := true;
           calls :=
             (calls w ++
              [CallGetPlugConfig; CallHidePanel modal;
               CallSetTreeViewEnabled false]) ++
             assetReads ++
             [CallGetPageTree config; CallGetCustomStyles;
              showPanelCall h config (position config) tree styles;
              CallSetTreeViewEnabled true] |})).
Proof.
  intros N Hc Hwin Hauto Hpos.
  destruct (showTree_cooperative_at h config N Hc) as (tree & styles & E).
  exists tree, styles. split.
  - intros Hnarrow HP. rewrite E.
    assert (T : getAdaptivePosition (window h) config = modal).
    { rewrite Hwin. unfold getAdaptivePosition. rewrite Hauto. simpl.
      apply Z.leb_le in Hnarrow. now rewrite Hnarrow. }
    rewrite T. now rewrite (hidden_first_stale modal (position config) w HP Hpos).
  - intros Hwide HP. rewrite E.
    assert (T : getAdaptivePosition (window h) config = position config).
    { rewrite Hwin. unfold getAdaptivePosition. rewrite Hauto. simpl.
      assert (L : (innerWidth win <=? mobileThreshold config) = false)
        by (apply Z.leb_gt; exact Hwide).
      now rewrite L. }
    rewrite T.
    rewrite (hidden_first_stale (position config) modal w HP) by congruence.
    reflexivity.
Qed.

(** X12. The position resolver returns ["modal"] or [config.position] and
    nothing else, and narrowing the viewport never leaves the modal: if it
    returns ["modal"] at some width, it does at every smaller width. *)
Theorem getAdaptivePosition_narrowing (config : TreeViewConfig)
  (narrower wider : Window) :
  innerWidth narrower <= innerWidth wider ->
  (getAdaptivePosition (Some wider) config = modal ->
   getAdaptivePosition (Some narrower) config = modal) /\
  (forall window,
     getAdaptivePosition window config = modal \/
     getAdaptivePosition window config = position config).
Proof.
  intros Hle. unfold getAdaptivePosition. split.
  - destruct (autoMobileMode config); simpl; [|trivial].
    destruct (Z.leb_spec (innerWidth wider) (mobileThreshold config)) as [Hw|Hw].
    + intros _.
      assert (L : (innerWidth narrower <=? mobileThreshold config) = true)
        by (apply Z.leb_le; lia).
      now rewrite L.
    + intros E. rewrite E.
      now destruct (innerWidth narrower <=? mobileThreshold config).
  - intros window. destruct (autoMobileMode config); simpl; [|now right].
    destruct window as [win|]; [|now right].
    destruct (innerWidth win <=? mobileThreshold config); [now left | now right].
Qed.



Lemma first_rejection_earliest {A : Type} (batch : list (Pending A)) t e :
  first_rejection batch = Some (t, e) ->
  forall p, In p batch -> resolves (settlesWith p) = false ->
  (t <= settlesAt p)%nat.
Proof.
  revert t e.
  induction batch as [|p0 rest IH]; simpl; intros t e H p Hin Hrej;
    [contradiction|].
  destruct (settlesWith p0) as [a|e0] eqn:E0.
  - destruct Hin as [->|Hin]; [rewrite E0 in Hrej; discriminate Hrej|].
    now apply (IH _ _ H).
  - destruct (first_rejection rest) as [[t' e']|] eqn:Er.
    + destruct (Nat.ltb_spec t' (settlesAt p0)) as [Hlt|Hge];
        inversion H; subst.
      * destruct Hin as [->|Hin]; [lia|]. now apply (IH _ _ eq_refl).
      * destruct Hin as [->|Hin]; [lia|].
        pose proof (IH _ _ eq_refl p Hin Hrej). lia.
    + inversion H; subst.
      destruct Hin as [->|Hin]; [lia|].
      exfalso. clear IH H E0.
      induction rest as [|q rest' IHr]; simpl in *; [contradiction|].
      destruct (settlesWith q) eqn:Eq.
      * destruct Hin as [->|Hin]; [rewrite Eq in Hrej; discriminate Hrej|].
        now apply IHr.
      * destruct (first_rejection rest') as [[? ?]|];
          [destruct (_ <? _)%nat|]; discriminate Er.
Qed.

(** X14. When asset reads reject, [showTree] rejects with the error of the
    rejecting read that settles first, the asset reads being its last calls:
    neither [getPageTree] nor [showPanel] is called. *)
Theorem showTree_asset_rejected (h : Host) (w : World)
  (config : TreeViewConfig) :
  plugConfig h = Resolved config ->
  hide_succeeds h (getAdaptivePosition (window h) config) w ->
  assets_resolve h = false ->
  exists path e,
    In path assetPaths /\
    assetAnswer h PLUG_NAME path = Rejected e /\
    (forall path' e',
       In path' assetPaths ->
       assetAnswer h PLUG_NAME path' = Rejected e' ->
       (assetSettles h path <= assetSettles h path')%nat) /\
    showTree h w =
      (Rejected e,
       logged assetReads (hidden_first (getAdaptivePosition (window h) config) w)).
Proof.
  intros Hc Hhide Ha.
  rewrite (showTree_reaches_fetch _ _ _ Hc Hhide).
  unfold fetch_and_show, bind at 1, Promise_all.
  rewrite <- asset_batch_resolves in Ha.
  destruct (first_rejection_some _ Ha) as (t & e & E). rewrite E.
  destruct (first_rejection_member _ _ _ E) as (p & Hin & Hrej & Ht).
  apply in_map_iff in Hin as (path & <- & Hpath).
  exists path, e. rewrite asset_batch_issued.
  split; [exact Hpath|]. split; [exact Hrej|]. split; [|reflexivity].
  intros path' e' Hin' Hrej'. simpl in Ht. rewrite Ht.
  apply (first_rejection_earliest _ _ _ E (asset_readAsset h PLUG_NAME path')).
  - apply in_map. exact Hin'.
  - simpl. now rewrite Hrej'.
Qed.

End Controller.

(** ** The properties at sample hosts *)

Lemma getAdaptivePosition_fixed_witness :
  autoMobileMode config_left = false /\
  getAdaptivePosition (Some wide_window) config_left = position config_left /\
  getAdaptivePosition None config_left = position config_left.
Proof.
  split; [reflexivity|].
  split; apply getAdaptivePosition_fixed; reflexivity.
Defined.

(** C4 as stated fails where the configured position is ["modal"]: on a
    viewport wider than the threshold the resolver still returns
    ["modal"]. *)
Lemma getAdaptivePosition_modal_on_wide_viewport :
  autoMobileMode config_adaptive_modal = true /\
  getAdaptivePosition (Some wide_window) config_adaptive_modal = modal /\
  ~ (getAdaptivePosition (Some wide_window) config_adaptive_modal = modal <->
     innerWidth wide_window <= mobileThreshold config_adaptive_modal).
Proof.
  split; [reflexivity|]. split; [reflexivity|].
  intros [Hwide _]. specialize (Hwide eq_refl). simpl in Hwide. lia.
Qed.

Lemma getAdaptivePosition_adaptive_witness :
  autoMobileMode config_adaptive_right = true /\
  getAdaptivePosition (Some wide_window) config_adaptive_right = right_side /\
  getAdaptivePosition (Some {| innerWidth := 600 |}) config_adaptive_right = modal /\
  getAdaptivePosition None config_adaptive_right = right_side.
Proof.
  split; [reflexivity|].
  destruct (getAdaptivePosition_adaptive config_adaptive_right eq_refl)
    as (Hnarrow & Hwide & _ & Hheadless).
  split; [|split].
  - apply Hwide. simpl. lia.
  - apply Hnarrow. simpl. lia.
  - exact Hheadless.
Defined.

Lemma hideTree_idempotent_witness :
  currentPosition world_shown_left = Some left_side /\
  hidePanelAnswer host_ok left_side = Resolved tt /\
  hideTree host_ok (snd (hideTree host_ok world_shown_left)) =
    (Resolved tt, snd (hideTree host_ok world_shown_left)) /\
  count_hidePanel (calls (snd (hideTree host_ok (snd (hideTree host_ok world_shown_left)))))
    = 1%nat.
Proof.
  split; [reflexivity|]. split; [reflexivity|].
  destruct (proj2 (hideTree_idempotent host_ok host_ok world_shown_left)
              left_side eq_refl eq_refl)
    as (_ & _ & _ & Hagain & _ & _ & Hcount).
  split; [exact Hagain | exact Hcount].
Defined.

Lemma toggleTree_enabled_not_shown_witness :
  treeViewEnabled world_enabled_not_shown = true /\
  currentPosition world_enabled_not_shown = None /\
  toggleTree "treeview" host_ok world_enabled_not_shown =
    (Resolved tt, logged [CallIsTreeViewEnabled] world_enabled_not_shown).
Proof.
  split; [reflexivity|]. split; [reflexivity|].
  exact (proj1 (toggleTree_enabled_not_shown "treeview" host_ok
                  world_enabled_not_shown eq_refl eq_refl)).
Defined.

Lemma never_rejects_host_ok : never_rejects "treeview" host_ok.
Proof.
  unfold never_rejects; simpl.
  split; [now exists config_left|].
  split; [now exists "client"|].
  split; [reflexivity|].
  split; [reflexivity|].
  split; [reflexivity|].
  split; [reflexivity|].
  split; [reflexivity|].
  split; [intros _; now exists sample_tree|].
  now exists None.
Defined.

Lemma toggleTree_show_then_hide_witness :
  treeViewEnabled world_hidden = false /\
  currentPosition world_hidden = None /\
  exists w1 w2,
    toggleTree "treeview" host_ok world_hidden = (Resolved tt, w1) /\
    count_showPanel (calls w1) = 1%nat /\
    treeViewEnabled w1 = true /\
    toggleTree "treeview" host_ok w1 = (Resolved tt, w2) /\
    count_hidePanel (calls w2) = 1%nat /\
    treeViewEnabled w2 = false.
Proof.
  split; [reflexivity|]. split; [reflexivity|].
  destruct (toggleTree_show_then_hide "treeview" host_ok host_ok world_hidden
              never_rejects_host_ok never_rejects_host_ok eq_refl eq_refl)
    as (w1 & w2 & E1 & He1 & _ & Hs1 & Hh1 & E2 & He2 & _ & Hh2 & _).
  exists w1, w2.
  split; [exact E1|]. split; [exact Hs1|]. split; [exact He1|].
  split; [exact E2|]. split; [|exact He2].
  rewrite Hh2, Hh1. reflexivity.
Defined.

Lemma showTreeIfEnabled_never_rejects_witness :
  env host_server = Resolved "server" /\
  treeViewEnabled world_enabled_not_shown = true /\
  showTreeIfEnabled "treeview" "TreeView" host_server world_enabled_not_shown =
    (Resolved tt, logged [CallGetEnv] world_enabled_not_shown).
Proof.
  split; [reflexivity|]. split; [reflexivity|].
  destruct (showTreeIfEnabled_never_rejects "treeview" "TreeView" host_server
              world_enabled_not_shown) as (_ & _ & _ & Hserver).
  exact (proj1 (Hserver eq_refl)).
Defined.

Lemma showTree_reentrant_witness :
  plugConfig host_ok = Resolved config_left /\
  currentPosition world_shown_right = Some right_side /\
  getAdaptivePosition (window host_ok) config_left <> right_side /\
  calls (snd (showTree "treeview" host_ok world_shown_right)) =
    ([CallGetPlugConfig; CallHidePanel right_side; CallSetTreeViewEnabled false] ++
     assetReads "treeview" ++
     [CallGetPageTree config_left; CallGetCustomStyles;
      showPanelCall "treeview" host_ok config_left left_side sample_tree None;
      CallSetTreeViewEnabled true])%list.
Proof.
  split; [reflexivity|]. split; [reflexivity|]. split; [discriminate|].
  destruct (showTree_reentrant "treeview" host_ok world_shown_right config_left
              right_side eq_refl eq_refl) as (_ & Hmoved & _).
  rewrite (Hmoved ltac:(discriminate) sample_tree None
             eq_refl eq_refl eq_refl eq_refl eq_refl eq_refl eq_refl).
  reflexivity.
Defined.

Lemma hide_succeeds_host_enable_rejects :
  hide_succeeds host_enable_rejects left_side world_shown_right.
Proof.
  intros P _ _. split; reflexivity.
Defined.

Lemma showTree_enable_rejected_witness :
  enabledWriteFault host_enable_rejects true = Some "store unavailable" /\
  fst (showTree "treeview" host_enable_rejects world_shown_right) =
    Rejected "store unavailable" /\
  count_showPanel (calls (snd (showTree "treeview" host_enable_rejects world_shown_right)))
    = 1%nat /\
  currentPosition (snd (showTree "treeview" host_enable_rejects world_shown_right))
    = None.
Proof.
  split; [reflexivity|].
  destruct (showTree_enable_rejected "treeview" host_enable_rejects
              world_shown_right config_left sample_tree None "store unavailable"
              eq_refl hide_succeeds_host_enable_rejects
              eq_refl eq_refl eq_refl eq_refl eq_refl)
    as (E & Hpos & _).
  split; [now rewrite E|]. split; [now rewrite E|]. exact Hpos.
Defined.

(** C1 as stated fails where a panel is shown at another position than the
    resolved one: by the time [getPageTree] rejects, that panel has been
    hidden, [currentPosition] cleared and the preference turned off. *)
Lemma showTree_pageTree_rejected_after_hide :
  pageTreeAnswer host_pageTree_rejects config_left =
    Rejected "page tree unavailable" /\
  fst (showTree "treeview" host_pageTree_rejects world_shown_right) =
    Rejected "page tree unavailable" /\
  currentPosition (snd (showTree "treeview" host_pageTree_rejects world_shown_right))
    <> currentPosition world_shown_right /\
  treeViewEnabled (snd (showTree "treeview" host_pageTree_rejects world_shown_right))
    <> treeViewEnabled world_shown_right.
Proof.
  split; [reflexivity|]. split; [reflexivity|].
  split; vm_compute; discriminate.
Qed.

Lemma hide_succeeds_host_pageTree_rejects :
  hide_succeeds host_pageTree_rejects left_side world_shown_left.
Proof.
  intros P _ _. split; reflexivity.
Defined.

Lemma showTree_pageTree_rejected_witness :
  pageTreeAnswer host_pageTree_rejects config_left =
    Rejected "page tree unavailable" /\
  fst (showTree "treeview" host_pageTree_rejects world_shown_left) =
    Rejected "page tree unavailable" /\
  currentPosition (snd (showTree "treeview" host_pageTree_rejects world_shown_left))
    = Some left_side /\
  treeViewEnabled (snd (showTree "treeview" host_pageTree_rejects world_shown_left))
    = true.
Proof.
  split; [reflexivity|].
  destruct (showTree_pageTree_rejected "treeview" host_pageTree_rejects
              world_shown_left config_left "page tree unavailable"
              eq_refl hide_succeeds_host_pageTree_rejects eq_refl eq_refl)
    as (E & Hsame & _).
  split; [now rewrite E|].
  exact (Hsame (or_intror eq_refl)).
Defined.

(** C2 as stated fails: [getCustomStyles] is not called when [getPageTree]
    rejects, and [getPageTree] is not called when an asset read rejects, so
    the three fetches are not one batch. *)
Lemma showTree_fetches_in_sequence :
  calls (snd (showTree "treeview" host_pageTree_rejects world_hidden)) =
    ([CallGetPlugConfig] ++ assetReads "treeview" ++
     [CallGetPageTree config_left])%list /\
  ~ In CallGetCustomStyles
      (calls (snd (showTree "treeview" host_pageTree_rejects world_hidden))) /\
  calls (snd (showTree "treeview" host_asset_rejects world_hidden)) =
    ([CallGetPlugConfig] ++ assetReads "treeview")%list /\
  ~ In (CallGetPageTree config_left)
      (calls (snd (showTree "treeview" host_asset_rejects world_hidden))).
Proof.
  split; [reflexivity|]. split.
  { vm_compute. intuition discriminate. }
  split; [reflexivity|].
  vm_compute. intuition discriminate.
Qed.

Lemma hide_succeeds_nothing_shown (h : Host) (target : Position) :
  hide_succeeds h target world_hidden.
Proof.
  intros P HP. discriminate HP.
Defined.

Lemma showTree_fetch_order_witness :
  plugConfig host_pageTree_rejects = Resolved config_left /\
  assets_resolve "treeview" host_pageTree_rejects = true /\
  showTree "treeview" host_pageTree_rejects world_hidden =
    (Rejected "page tree unavailable",
     logged ([CallGetPlugConfig] ++ assetReads "treeview" ++
             [CallGetPageTree config_left]) world_hidden).
Proof.
  split; [reflexivity|]. split; [reflexivity|].
  destruct (showTree_fetch_order "treeview" host_pageTree_rejects world_hidden
              config_left eq_refl (hide_succeeds_nothing_shown _ _))
    as (_ & Htree & _).
  rewrite (Htree eq_refl "page tree unavailable" eq_refl).
  reflexivity.
Defined.

(** ** The payload at a sample host *)

Example JSON_stringify_sample :
  JSON_stringify (treeViewConfig sample_tree config_left) =
  "{" ++ q "nodes" ++ ":[{" ++ q "name" ++ ":" ++ q "index" ++ "}],"
      ++ q "currentPage" ++ ":" ++ q "index" ++ ","
      ++ q "treeElementId" ++ ":" ++ q "treeview-tree" ++ ","
      ++ q "dragAndDrop" ++ ":{" ++ q "enabled" ++ ":true,"
      ++ q "confirmOnRename" ++ ":true}}".
Proof. reflexivity. Qed.

Example escape_string_sample :
  escape_string ("a" ++ dquote ++ "b\c") = "a\" ++ dquote ++ "b\\c".
Proof. reflexivity. Qed.

(** ** The further properties at sample hosts *)

Lemma shown_implies_enabled_preserved_witness :
  shown_implies_enabled world_shown_left /\
  shown_implies_enabled (snd (hideTree host_ok world_shown_left)) /\
  shown_implies_enabled
    (snd (showTree "treeview" host_pageTree_rejects world_shown_left)).
Proof.
  assert (I : shown_implies_enabled world_shown_left) by (intros _; reflexivity).
  split; [exact I|]. split.
  - exact (proj1 (shown_implies_enabled_preserved "treeview" "TreeView"
                    host_ok world_shown_left I)).
  - exact (proj1 (proj2 (shown_implies_enabled_preserved "treeview" "TreeView"
                           host_pageTree_rejects world_shown_left I))).
Defined.

Lemma showTree_resolved_inversion_witness :
  fst (showTree "treeview" host_ok world_hidden) = Resolved tt /\
  currentPosition (snd (showTree "treeview" host_ok world_hidden)) =
    Some left_side /\
  treeViewEnabled (snd (showTree "treeview" host_ok world_hidden)) = true.
Proof.
  split; [reflexivity|].
  destruct (showTree_resolved_inversion "treeview" host_ok world_hidden eq_refl)
    as (config & tree & styles & Hc & _ & _ & _ & _ & _ & _ & E).
  rewrite E. simpl in Hc. inversion Hc; subst config.
  split; reflexivity.
Defined.

Lemma showTree_showPanel_rejected_witness :
  fst (showTree "treeview" host_showPanel_rejects world_hidden) =
    Rejected "panel unavailable" /\
  currentPosition (snd (showTree "treeview" host_showPanel_rejects world_hidden))
    = None /\
  treeViewEnabled (snd (showTree "treeview" host_showPanel_rejects world_hidden))
    = false.
Proof.
  destruct (showTree_showPanel_rejected "treeview" host_showPanel_rejects
              world_hidden config_left sample_tree None "panel unavailable"
              eq_refl (hide_succeeds_nothing_shown _ _)
              eq_refl eq_refl eq_refl eq_refl)
    as (E & Hsame).
  split; [now rewrite E|].
  exact (Hsame (or_introl eq_refl)).
Defined.

Lemma hideTree_hidePanel_rejected_witness :
  hideTree host_hidePanel_rejects world_shown_left =
    (Rejected "panel unavailable", logged [CallHidePanel left_side] world_shown_left) /\
  hideTree host_ok (snd (hideTree host_hidePanel_rejects world_shown_left)) =
    (Resolved tt,
     {| currentPosition := None;
        treeViewEnabled := false;
        calls := [CallHidePanel left_side; CallHidePanel left_side;
                  CallSetTreeViewEnabled false] |}).
Proof.
  destruct (hideTree_hidePanel_rejected host_hidePanel_rejects host_ok
              world_shown_left left_side "panel unavailable" eq_refl eq_refl)
    as (E & Hretry).
  split; [exact E|]. exact (Hretry eq_refl eq_refl).
Defined.

Lemma hideTree_write_rejected_witness :
  hideTree host_disable_rejects world_shown_left =
    (Rejected "store unavailable",
     {| currentPosition := None;
        treeViewEnabled := true;
        calls := [CallHidePanel left_side; CallSetTreeViewEnabled false] |}) /\
  fst (toggleTree "treeview" host_ok
         (snd (hideTree host_disable_rejects world_shown_left))) = Resolved tt.
Proof.
  destruct (hideTree_write_rejected "treeview" host_disable_rejects host_ok
              world_shown_left left_side "store unavailable"
              eq_refl eq_refl eq_refl)
    as (E & Hstuck).
  split; [exact E|]. now rewrite (Hstuck eq_refl eq_refl).
Defined.

Lemma showTree_enable_rejected_then_hide_witness :
  count_showPanel (calls (snd (showTree "treeview" host_enable_rejects world_hidden)))
    = 1%nat /\
  hideTree host_ok (snd (showTree "treeview" host_enable_rejects world_hidden)) =
    (Resolved tt, snd (showTree "treeview" host_enable_rejects world_hidden)).
Proof.
  exact (showTree_enable_rejected_then_hide "treeview" host_enable_rejects
           host_ok world_hidden config_left sample_tree None "store unavailable"
           eq_refl eq_refl eq_refl eq_refl eq_refl eq_refl eq_refl).
Defined.

Lemma showTreeIfEnabled_disabled_witness :
  showTreeIfEnabled "treeview" "TreeView" host_ok world_hidden =
    (Resolved tt, logged [CallGetEnv; CallIsTreeViewEnabled] world_hidden) /\
  showTreeIfEnabled "treeview" "TreeView" host_read_rejects world_enabled_not_shown =
    (Resolved tt,
     logged [CallGetEnv; CallIsTreeViewEnabled;
             ConsoleError "TreeView: showTreeIfEnabled failed" "store unavailable"]
       world_enabled_not_shown).
Proof.
  split.
  - apply (showTreeIfEnabled_disabled "treeview" "TreeView" host_ok world_hidden
             "client" eq_refl);
      [discriminate | reflexivity | reflexivity].
  - apply (showTreeIfEnabled_disabled "treeview" "TreeView" host_read_rejects
             world_enabled_not_shown "client" eq_refl);
      [discriminate | reflexivity].
Defined.

Lemma showTreeIfEnabled_reconciles_witness :
  exists w1 w2,
    showTreeIfEnabled "treeview" "TreeView" host_ok world_enabled_not_shown =
      (Resolved tt, w1) /\
    currentPosition w1 <> None /\
    toggleTree "treeview" host_ok w1 = (Resolved tt, w2) /\
    currentPosition w2 = None /\
    treeViewEnabled w2 = false.
Proof.
  destruct (showTreeIfEnabled_reconciles "treeview" "TreeView" host_ok host_ok
              world_enabled_not_shown "client"
              never_rejects_host_ok eq_refl ltac:(discriminate)
              never_rejects_host_ok eq_refl eq_refl)
    as (w1 & w2 & target & E1 & HP1 & _ & _ & E2 & HP2 & He2 & _).
  exists w1, w2. split; [exact E1|]. split; [rewrite HP1; discriminate|].
  split; [exact E2|]. split; [exact HP2 | exact He2].
Defined.

Lemma showTree_rerender_witness :
  currentPosition (snd (showTree "treeview" host_ok world_shown_left)) =
    Some left_side /\
  count_hidePanel (calls (snd (showTree "treeview" host_ok world_shown_left)))
    = 0%nat /\
  count_showPanel (calls (snd (showTree "treeview" host_ok world_shown_left)))
    = 1%nat.
Proof.
  destruct (showTree_rerender "treeview" host_ok world_shown_left config_left
              never_rejects_host_ok eq_refl eq_refl)
    as (tree & styles & E & Hh & Hs).
  split; [now rewrite E|]. split; [exact Hh | exact Hs].
Defined.

Lemma never_rejects_host_adaptive (win : Window) :
  never_rejects "treeview" (host_adaptive win).
Proof.
  unfold never_rejects; simpl.
  split; [now exists config_adaptive_right|].
  split; [now exists "client"|].
  split; [reflexivity|].
  split; [reflexivity|].
  split; [reflexivity|].
  split; [reflexivity|].
  split; [reflexivity|].
  split; [intros _; now exists sample_tree|].
  now exists None.
Defined.

Lemma showTree_follows_viewport_witness :
  currentPosition
    (snd (showTree "treeview" (host_adaptive narrow_window) world_shown_right))
    = Some modal /\
  currentPosition
    (snd (showTree "treeview" (host_adaptive wide_window) world_shown_modal))
    = Some right_side.
Proof.
  split.
  - destruct (showTree_follows_viewport "treeview" (host_adaptive narrow_window)
                world_shown_right config_adaptive_right narrow_window
                (never_rejects_host_adaptive _) eq_refl eq_refl eq_refl
                ltac:(discriminate))
      as (tree & styles & Hnarrow & _).
    rewrite (Hnarrow ltac:(simpl; lia) eq_refl). reflexivity.
  - destruct (showTree_follows_viewport "treeview" (host_adaptive wide_window)
                world_shown_modal config_adaptive_right wide_window
                (never_rejects_host_adaptive _) eq_refl eq_refl eq_refl
                ltac:(discriminate))
      as (tree & styles & _ & Hwide).
    rewrite (Hwide ltac:(simpl; lia) eq_refl). reflexivity.
Defined.

Lemma getAdaptivePosition_narrowing_witness :
  innerWidth narrow_window <= innerWidth {| innerWidth := 600 |} /\
  getAdaptivePosition (Some {| innerWidth := 600 |}) config_adaptive_right = modal /\
  getAdaptivePosition (Some narrow_window) config_adaptive_right = modal.
Proof.
  split; [simpl; lia|]. split; [reflexivity|].
  apply (proj1 (getAdaptivePosition_narrowing config_adaptive_right
                  narrow_window {| innerWidth := 600 |} ltac:(simpl; lia))).
  reflexivity.
Defined.


Lemma showTree_asset_rejected_witness :
  assets_resolve "treeview" host_two_assets_reject = false /\
  fst (showTree "treeview" host_two_assets_reject world_hidden) =
    Rejected "icon missing" /\
  exists path e,
    In path assetPaths /\
    assetAnswer host_two_assets_reject "treeview" path = Rejected e /\
    fst (showTree "treeview" host_two_assets_reject world_hidden) = Rejected e.
Proof.
  split; [reflexivity|]. split; [reflexivity|].
  destruct (showTree_asset_rejected "treeview" host_two_assets_reject
              world_hidden config_left eq_refl
              (hide_succeeds_nothing_shown _ _) eq_refl)
    as (path & e & Hin & Hrej & _ & E).
  exists path, e. split; [exact Hin|]. split; [exact Hrej|]. now rewrite E.
Defined.
